(** * FileMerger: a shallow embedding of the merge script and its properties

    The script walks a directory, lists its structure and concatenates the
    files whose extension is in an allow-list into one output file.

    Paths and file contents are modelled as ASCII strings ([string]); the
    calls into Python's [str] and [os.path] (POSIX flavour) are embedded in
    the modules [PyStr] and [PosixPath], following the definitions of
    CPython's [posixpath] and [genericpath].  The class itself lives in the
    module [FileMerger]. *)

From Stdlib Require Import String Ascii List ZArith Lia Bool Permutation.
Import ListNotations.

Local Open Scope list_scope.
Local Open Scope string_scope.

(* ================================================================== *)
(** ** The methods of [str] the script uses *)
(* ================================================================== *)

Module PyStr.

(** [c.lower()] on one ASCII character. *)
Definition lower_char (c : ascii) : ascii :=
  let n := nat_of_ascii c in
  if (65 <=? n)%nat && (n <=? 90)%nat then ascii_of_nat (n + 32) else c.

(** [s.lower()] on a string of ASCII characters.  Paths are taken to be
    ASCII throughout; [str.lower] also maps letters beyond ASCII (the
    Kelvin sign U+212A to [k]), which this function leaves as they are. *)
Fixpoint lower (s : string) : string :=
  match s with
  | EmptyString => EmptyString
  | String c s' => String (lower_char c) (lower s')
  end.

(** [s.startswith(p)] *)
Definition startswith (s p : string) : bool := String.prefix p s.

(** [s.endswith(c)] for a one-character argument. *)
Fixpoint endswith_char (s : string) (c : ascii) : bool :=
  match s with
  | EmptyString => false
  | String a EmptyString => Ascii.eqb a c
  | String _ s' => endswith_char s' c
  end.

(** [s.rfind(c)] for a one-character argument: the highest index holding
    [c], or [-1].  [i] is the index of the head of [s], [acc] the last hit. *)
Fixpoint rfind_from (c : ascii) (s : string) (i acc : Z) : Z :=
  match s with
  | EmptyString => acc
  | String a s' => rfind_from c s' (i + 1)%Z (if Ascii.eqb a c then i else acc)
  end.

Definition rfind (s : string) (c : ascii) : Z := rfind_from c s 0%Z (-1)%Z.

Fixpoint drop (n : nat) (s : string) : string :=
  match n, s with
  | O, _ => s
  | S _, EmptyString => EmptyString
  | S n', String _ s' => drop n' s'
  end.

Fixpoint take (n : nat) (s : string) : string :=
  match n, s with
  | O, _ => EmptyString
  | S _, EmptyString => EmptyString
  | S n', String a s' => String a (take n' s')
  end.

(** [s[i:]] and [s[:i]]; every use in the script has [0 <= i]. *)
Definition slice_from (s : string) (i : Z) : string := drop (Z.to_nat i) s.
Definition slice_to (s : string) (i : Z) : string := take (Z.to_nat i) s.

(** [s[i:j]] for [0 <= i]. *)
Definition slice (s : string) (i j : Z) : string :=
  take (Z.to_nat (j - i)) (drop (Z.to_nat i) s).

(** [s.count(c)] for a one-character argument. *)
Fixpoint count (s : string) (c : ascii) : nat :=
  match s with
  | EmptyString => O
  | String a s' => if Ascii.eqb a c then S (count s' c) else count s' c
  end.

(** [s.replace(old, new)]: every non-overlapping occurrence of [old],
    leftmost first.  [skip] counts the characters of a matched occurrence
    that are still to be dropped.  An empty [old] matches between all
    characters. *)
Fixpoint replace_go (old new : string) (skip : nat) (s : string) : string :=
  match skip with
  | S k =>
      match s with
      | EmptyString => EmptyString
      | String _ s' => replace_go old new k s'
      end
  | O =>
      match s with
      | EmptyString => if String.eqb old EmptyString then new else EmptyString
      | String a s' =>
          if String.prefix old s
          then match String.length old with
               | O => new ++ String a (replace_go old new O s')
               | S k => new ++ replace_go old new k s'
               end
          else String a (replace_go old new O s')
      end
  end.

Definition replace (s old new : string) : string := replace_go old new O s.

(** [s * n] *)
Fixpoint times (s : string) (n : nat) : string :=
  match n with
  | O => EmptyString
  | S n' => s ++ times s n'
  end.

(** [sep.join(l)] *)
Definition join (sep : string) (l : list string) : string := String.concat sep l.

(** [s.split(c)] for a one-character separator; [cur] is the piece being
    read, reversed. *)
Fixpoint rev_string (acc s : string) : string :=
  match s with
  | EmptyString => acc
  | String a s' => rev_string (String a acc) s'
  end.

Fixpoint split_go (c : ascii) (cur : string) (s : string) : list string :=
  match s with
  | EmptyString => [rev_string EmptyString cur]
  | String a s' =>
      if Ascii.eqb a c
      then rev_string EmptyString cur :: split_go c EmptyString s'
      else split_go c (String a cur) s'
  end.

Definition split (s : string) (c : ascii) : list string := split_go c EmptyString s.

(** [x in S] for a set (or tuple) of strings. *)
Definition mem (x : string) (S : list string) : bool := existsb (String.eqb x) S.

End PyStr.

(* ================================================================== *)
(** ** [os.path] on a POSIX system *)
(* ================================================================== *)

Module PosixPath.
Import PyStr.

Definition sep : ascii := "/"%char.
Definition extsep : ascii := "."%char.

(** [[
def basename(p):
    i = p.rfind(sep) + 1
    return p[i:]
]] *)
Definition basename (p : string) : string :=
  let i := (rfind p sep + 1)%Z in
  slice_from p i.

(** The loop of [genericpath._splitext] that skips leading dots:
[[
        while filenameIndex < dotIndex:
            if p[filenameIndex:filenameIndex+1] != extsep:
                return p[:dotIndex], p[dotIndex:]
            filenameIndex += 1
    return p, p[:0]
]]
    [n] is the number of iterations left, [dotIndex - filenameIndex]. *)
Fixpoint splitext_scan (n : nat) (p : string) (filenameIndex dotIndex : Z)
  : string * string :=
  match n with
  | O => (p, EmptyString)
  | S n' =>
      if negb (String.eqb (slice p filenameIndex (filenameIndex + 1))
                          (String extsep EmptyString))
      then (slice_to p dotIndex, slice_from p dotIndex)
      else splitext_scan n' p (filenameIndex + 1)%Z dotIndex
  end.

(** [[
def _splitext(p, sep, altsep, extsep):
    sepIndex = p.rfind(sep)
    dotIndex = p.rfind(extsep)
    if dotIndex > sepIndex:
        filenameIndex = sepIndex + 1
        while ...
    return p, p[:0]
]] *)
Definition splitext (p : string) : string * string :=
  let sepIndex := rfind p sep in
  let dotIndex := rfind p extsep in
  if (sepIndex <? dotIndex)%Z then
    let filenameIndex := (sepIndex + 1)%Z in
    splitext_scan (Z.to_nat (dotIndex - filenameIndex)) p filenameIndex dotIndex
  else (p, EmptyString).

(** [os.path.join(a, b)]:
[[
    if b.startswith(sep):            path = b
    elif not path or path.endswith(sep): path += b
    else:                            path += sep + b
]] *)
Definition join (a b : string) : string :=
  if startswith b (String sep EmptyString) then b
  else if String.eqb a EmptyString || endswith_char a sep then a ++ b
  else a ++ String sep b.

(** [os.path.join] applied to the elements of a non-empty list. *)
Definition join_list (l : list string) : string :=
  match l with
  | [] => EmptyString
  | a :: rest => fold_left join rest a
  end.

Definition isabs (p : string) : bool := startswith p (String sep EmptyString).

(** The component loop of [normpath]; [new_comps] is kept reversed. *)
Fixpoint normpath_comps (initial_slashes : nat) (comps : list string)
         (new_comps : list string) : list string :=
  match comps with
  | [] => rev new_comps
  | comp :: rest =>
      if String.eqb comp "" || String.eqb comp "." then
        normpath_comps initial_slashes rest new_comps
      else if negb (String.eqb comp "..")
              || ((initial_slashes =? 0)%nat && match new_comps with [] => true | _ => false end)
              || match new_comps with last :: _ => String.eqb last ".." | [] => false end
      then normpath_comps initial_slashes rest (comp :: new_comps)
      else match new_comps with
           | _ :: popped => normpath_comps initial_slashes rest popped
           | [] => normpath_comps initial_slashes rest new_comps
           end
  end.

(** [os.path.normpath(path)] *)
Definition normpath (path : string) : string :=
  if String.eqb path "" then "."
  else
    let initial_slashes :=
      if startswith path "/" then
        if startswith path "//" && negb (startswith path "///") then 2%nat else 1%nat
      else 0%nat in
    let comps := normpath_comps initial_slashes (split path sep) [] in
    let path' := times "/" initial_slashes ++ PyStr.join "/" comps in
    if String.eqb path' "" then "." else path'.

(** [os.path.abspath(path)], with the working directory [cwd] of the
    process. *)
Definition abspath (cwd path : string) : string :=
  if isabs path then normpath path else normpath (join cwd path).

Fixpoint commonprefix_len (a b : list string) : nat :=
  match a, b with
  | x :: a', y :: b' => if String.eqb x y then S (commonprefix_len a' b') else O
  | _, _ => O
  end.

(** [os.path.relpath(path, start)] for a non-empty [path]. *)
Definition relpath (cwd path start : string) : string :=
  let nonempty := filter (fun x => negb (String.eqb x "")) in
  let start_list := nonempty (split (abspath cwd start) sep) in
  let path_list := nonempty (split (abspath cwd path) sep) in
  let i := commonprefix_len start_list path_list in
  let rel_list := (List.repeat ".." (List.length start_list - i) ++ skipn i path_list)%list in
  match rel_list with
  | [] => "."
  | _ => join_list rel_list
  end.

End PosixPath.

(* ================================================================== *)
(** ** The world the script runs in *)
(* ================================================================== *)

Definition nl : string := String (ascii_of_nat 10) EmptyString.

(** What happens when the script opens a file of the walked tree and
    reads it.  The messages are [str(e)] of the exception raised. *)
Inductive ReadOutcome : Type :=
| Readable (content : string)
| OpenFails (msg : string)
| ReadFails (msg : string).

Record File : Type := { fname : string; outcome : ReadOutcome }.

#[local] Set Warnings "-register-all".

(** A directory as [os.walk] enumerates it: its files, then its
    sub-directories by name, both in the order of the file system. *)
Inductive Dir : Type :=
| MkDir (files : list File) (subdirs : list (string * Dir)).

(** A reading of the clock; [datetime] keeps the year within four
    digits and the other fields within two. *)
Record DateTime : Type :=
  { year : nat; month : nat; day : nat; hour : nat; minute : nat; second : nat }.

(** What a run of the script meets.  [fs] is the tree as the walks of one
    run find it, each file with the outcome of opening and reading it;
    [None] stands for a top that cannot be listed because of an [OSError]
    (missing, not a directory, permission denied), which [os.walk]
    swallows.  [walk_fault] says that [os.walk] of a top raises an
    exception it does not swallow ([ValueError] for a path with a NUL
    character, [RecursionError] on a very deep tree before Python 3.12).
    A run reads the clock as [now].  The other fields say which
    operations on the output file raise: opening it, a call of [write]
    (whatever the reason: the buffer is flushed and the disk is full, a
    name cannot be encoded), and closing it, which flushes what is still
    buffered. *)
Record Env : Type :=
  { cwd : string;                        (* os.getcwd() *)
    now : DateTime;                      (* datetime.datetime.now() *)
    fs : string -> option Dir;           (* the tree found at a path, if it can be listed *)
    open_output : option string;         (* [Some msg]: opening the output file raises *)
    write_fault : nat -> option string;  (* [Some msg]: that call of outfile.write raises *)
    close_fault : option string;         (* [Some msg]: closing the output file raises *)
    walk_fault : string -> option string (* [Some msg]: os.walk of that top raises *)
  }.

(** [datetime.strftime] for the directives the script uses. *)
Definition digit (n : nat) : ascii := ascii_of_nat (48 + n mod 10).

Definition zero_pad2 (n : nat) : string :=
  String (digit (n / 10)) (String (digit n) EmptyString).

Definition zero_pad4 (n : nat) : string :=
  String (digit (n / 1000)) (String (digit (n / 100)) (zero_pad2 n)).

Definition directive (d : DateTime) (c : ascii) : string :=
  if Ascii.eqb c "Y" then zero_pad4 (year d)
  else if Ascii.eqb c "m" then zero_pad2 (month d)
  else if Ascii.eqb c "d" then zero_pad2 (day d)
  else if Ascii.eqb c "H" then zero_pad2 (hour d)
  else if Ascii.eqb c "M" then zero_pad2 (minute d)
  else if Ascii.eqb c "S" then zero_pad2 (second d)
  else String "%" (String c EmptyString).

Fixpoint strftime (d : DateTime) (fmt : string) : string :=
  match fmt with
  | EmptyString => EmptyString
  | String a rest =>
      if Ascii.eqb a "%" then
        match rest with
        | String c rest' => directive d c ++ strftime d rest'
        | EmptyString => String a EmptyString
        end
      else String a (strftime d rest)
  end.

(** [os.walk(top)], top-down: the directory itself, then each
    sub-directory in turn under the path [os.path.join(top, name)]. *)
Fixpoint walk (top : string) (d : Dir) : list (string * list string * list File) :=
  match d with
  | MkDir files subdirs =>
      (top, map fst subdirs, files)
        :: flat_map (fun sd => walk (PosixPath.join top (fst sd)) (snd sd)) subdirs
  end.

(** A top that cannot be listed yields nothing: [os.walk] ignores the
    error. *)
Definition os_walk (env : Env) (top : string) : list (string * list string * list File) :=
  match fs env top with
  | Some d => walk top d
  | None => []
  end.

(* ================================================================== *)
(** ** Writing to the output file: state and exceptions *)
(* ================================================================== *)

(** The open output file: the text taken by the calls of [write] that
    returned, and the number of calls of [write] made on it.  The text is
    buffered; the file on disk holds all of it once [close] has
    returned. *)
Record OutFile : Type := { written : string; calls : nat }.

(** A computation on the output file either raises (left, with the
    message of the exception) or returns (right); the file keeps what was
    written before an exception. *)
Definition IO (A : Type) : Type := OutFile -> (string + A) * OutFile.

Definition ret {A} (a : A) : IO A := fun o => (inr a, o).

Definition bind {A B} (m : IO A) (k : A -> IO B) : IO B :=
  fun o => match m o with
           | (inr a, o') => k a o'
           | (inl e, o') => (inl e, o')
           end.

Definition raise {A} (msg : string) : IO A := fun o => (inl msg, o).

(** [try: m  except Exception as e: handler(str(e))] *)
Definition try_except {A} (m : IO A) (handler : string -> IO A) : IO A :=
  fun o => match m o with
           | (inl e, o') => handler e o'
           | r => r
           end.

Notation "m1 ;; m2" := (bind m1 (fun _ => m2))
  (at level 61, right associativity).
Notation "x <- m1 ;; m2" := (bind m1 (fun x => m2))
  (at level 61, m1 at next level, right associativity).

(** [outfile.write(s)] *)
Definition write (env : Env) (s : string) : IO unit :=
  fun o => match write_fault env (calls o) with
           | Some msg => (inl msg, {| written := written o; calls := S (calls o) |})
           | None => (inr tt, {| written := written o ++ s; calls := S (calls o) |})
           end.

(** [for x in l: body(x)] *)
Fixpoint for_each {A} (l : list A) (body : A -> IO unit) : IO unit :=
  match l with
  | [] => ret tt
  | x :: l' => body x ;; for_each l' body
  end.

(** [outfile.close()] *)
Definition close (env : Env) : IO unit :=
  fun o => match close_fault env with
           | Some msg => (inl msg, o)
           | None => (inr tt, o)
           end.

(** [with open(...) as outfile: block], once the file is open: however
    the block is left, by its end, by [return] or by an exception, the
    file is closed; an exception of [close] is the one that goes on. *)
Definition with_open {A} (env : Env) (block : IO A) : IO A :=
  fun o => match block o with
           | (inr a, o') =>
               match close env o' with
               | (inr _, o'') => (inr a, o'')
               | (inl e, o'') => (inl e, o'')
               end
           | (inl e, o') =>
               match close env o' with
               | (inr _, o'') => (inl e, o'')
               | (inl e', o'') => (inl e', o'')
               end
           end.

(** [os.walk(top)] where it is called: it raises what it does not
    swallow. *)
Definition os_walk_io (env : Env) (top : string)
  : IO (list (string * list string * list File)) :=
  match walk_fault env top with
  | Some msg => raise msg
  | None => ret (os_walk env top)
  end.

(* ================================================================== *)
(** ** class FileMerger *)
(* ================================================================== *)

Module FileMerger.
Import PyStr.

Record t : Type :=
  { supported_extensions : list string;
    exclude_files : list string;
    output_pattern : string }.

(** [__init__]: the two set literals, as written, and the pattern. *)
Definition init : t :=
  {| supported_extensions := [
      (* Web Development *)
      ".html"; ".htm"; ".xhtml"; ".css"; ".less"; ".sass"; ".scss";
      ".js"; ".jsx"; ".ts"; ".tsx"; ".cjs"; ".mjs"; ".vue"; ".svelte";
      ".webmanifest"; ".htaccess";
      (* Python *)
      ".py"; ".pyi"; ".pyx"; ".pxd"; ".pxi"; ".pyc"; ".pyd"; ".pyw";
      ".ipynb"; ".rpy"; ".pyz"; ".whl";
      (* Java & JVM *)
      ".java"; ".class"; ".jar"; ".war"; ".jsp"; ".jspx"; ".gradle";
      ".groovy"; ".gvy"; ".gy"; ".gsh"; ".kt"; ".kts"; ".ktm"; ".scala";
      ".sc"; ".clj"; ".cljs"; ".cljc"; ".edn";
      (* C/C++ *)
      ".c"; ".cpp"; ".cc"; ".cxx"; ".c++"; ".h"; ".hpp"; ".hh"; ".hxx";
      ".h++"; ".inl"; ".inc"; ".ixx"; ".def"; ".tcc";
      (* C#/.NET *)
      ".cs"; ".csx"; ".vb"; ".fs"; ".fsx"; ".fsi"; ".fsscript";
      ".xaml"; ".razor"; ".cshtml"; ".vbhtml"; ".aspx"; ".ascx";
      (* PHP *)
      ".php"; ".php3"; ".php4"; ".php5"; ".phtml"; ".phps";
      ".phar"; ".inc";
      (* Ruby *)
      ".rb"; ".rbw"; ".rake"; ".gemspec"; ".ru"; ".erb"; ".rhtml";
      ".rjs"; ".rxml"; ".builder";
      (* Go *)
      ".go"; ".mod"; ".sum"; ".work";
      (* Rust *)
      ".rs"; ".rlib"; ".rst";
      (* Swift & Objective-C *)
      ".swift"; ".m"; ".mm"; ".h"; ".metal";
      (* Shell & Scripts *)
      ".sh"; ".bash"; ".zsh"; ".fish"; ".ksh"; ".csh"; ".tcsh";
      ".bat"; ".cmd"; ".ps1"; ".psm1"; ".psd1"; ".vbs"; ".vbe";
      ".wsf"; ".wsc";
      (* Database & Query *)
      ".sql"; ".mysql"; ".pgsql"; ".plsql"; ".ora"; ".spl";
      ".hql"; ".qml"; ".prisma";
      (* Configuration *)
      ".json"; ".jsonc"; ".json5"; ".yaml"; ".yml"; ".toml"; ".ini";
      ".conf"; ".config"; ".cfg"; ".properties"; ".prop"; ".env";
      ".editorconfig"; ".babelrc"; ".eslintrc"; ".prettierrc";
      ".dockerignore"; ".gitignore"; ".npmrc"; ".yarnrc";
      ".gitattributes";
      (* Documentation *)
      ".md"; ".markdown"; ".mdown"; ".mkd"; ".mkdn"; ".mdwn"; ".mdtxt";
      ".mdtext"; ".txt"; ".text"; ".rst"; ".asciidoc"; ".adoc"; ".asc";
      ".creole"; ".wiki"; ".mediawiki"; ".tex"; ".ltx"; ".latex";
      (* Data Formats *)
      ".xml"; ".xsl"; ".xslt"; ".svg"; ".wsdl"; ".dtd"; ".xsd";
      ".rss"; ".atom"; ".csv"; ".tsv"; ".ods"; ".ots";
      (* Mobile Development *)
      ".dart"; ".kt"; ".gradle"; ".plist"; ".storyboard"; ".xib";
      ".pbxproj"; ".xcworkspacedata"; ".xcscheme";
      (* Other Languages *)
      ".lua"; ".tcl"; ".tk"; ".r"; ".rmd"; ".julia"; ".jl";
      ".f"; ".f90"; ".f95"; ".f03"; ".f08"; ".for"; ".f77";
      ".hs"; ".lhs"; ".elm"; ".erl"; ".hrl"; ".ex"; ".exs";
      ".eex"; ".leex"; ".heex"; ".ml"; ".mli"; ".pp";
      ".pas"; ".inc"; ".dpr"; ".dpk";
      (* Build & Package *)
      ".cmake"; ".make"; ".mk"; ".mak"; ".dockerfile"; ".lock";
      ".gemfile"; ".rakefile"; ".nuspec"; ".nupkg"; ".csproj";
      ".vbproj"; ".fsproj"; ".vcxproj"; ".sln";
      (* Template Files *)
      ".tmpl"; ".tpl"; ".template"; ".mustache"; ".handlebars"; ".hbs";
      ".ejs"; ".eta"; ".jade"; ".pug"; ".haml"; ".slim"; ".liquid";
      ".j2"; ".jinja"; ".jinja2"
      
     ];
     exclude_files := [ "file_merger.py" ];
     output_pattern := "_merged_" |}.

(** [[
    def get_directory_structure(self, startpath):
        structure = []
        for root, dirs, files in os.walk(startpath):
            level = root.replace(startpath, '').count(os.sep)
            indent = '  ' * level
            structure.append(f'{indent}{os.path.basename(root)}/')
            subindent = '  ' * (level + 1)
            for f in files:
                structure.append(f'{subindent}{f}')
        return '\n'.join(structure)
]] *)
Definition structure_of (startpath : string)
           (entry : string * list string * list File) : list string :=
  let '(root, _, files) := entry in
  let level := count (replace root startpath "") PosixPath.sep in
  let indent := times "  " level in
  let subindent := times "  " (level + 1) in
  (indent ++ PosixPath.basename root ++ "/")
    :: map (fun f => subindent ++ fname f) files.

Definition get_directory_structure (env : Env) (startpath : string) : string :=
  let structure := flat_map (structure_of startpath) (os_walk env startpath) in
  join nl structure.

(** The call of the method: an exception of [os.walk] leaves it;
    otherwise it returns the string above. *)
Definition get_directory_structure_call (env : Env) (startpath : string) : IO string :=
  _ <- os_walk_io env startpath ;;
  ret (get_directory_structure env startpath).

(** [[
    def is_text_file(self, file_path):
        filename = os.path.basename(file_path)
        if (filename in self.exclude_files or
            filename.startswith(self.output_pattern)):
            return False
        _, ext = os.path.splitext(file_path.lower())
        return ext in self.supported_extensions
]] *)
Definition is_text_file (self : t) (file_path : string) : bool :=
  let filename := PosixPath.basename file_path in
  if mem filename (exclude_files self) || startswith filename (output_pattern self)
  then false
  else
    let ext := snd (PosixPath.splitext (lower file_path)) in
    mem ext (supported_extensions self).

(** The body of the inner [with open(file_path, 'r', ...) as infile:]. *)
Definition copy_file (env : Env) (source_dir file_path : string) (f : File) : IO unit :=
  match outcome f with
  | OpenFails msg => raise msg
  | _ =>
      let relative_path := PosixPath.relpath (cwd env) file_path source_dir in
      write env (times "=" 80 ++ nl) ;;
      write env ("File: " ++ relative_path ++ nl) ;;
      write env (times "=" 80 ++ nl ++ nl) ;;
      content <- match outcome f with
                 | Readable c => ret c
                 | OpenFails msg | ReadFails msg => raise msg
                 end ;;
      write env content ;;
      write env (nl ++ nl)
  end.

(** One turn of [for file in files:]. *)
Definition process_file (self : t) (env : Env) (source_dir root : string) (f : File)
  : IO unit :=
  let file_path := PosixPath.join root (fname f) in
  if is_text_file self file_path then
    try_except (copy_file env source_dir file_path f)
      (fun e => write env ("Error reading file " ++ file_path ++ ": " ++ e ++ nl ++ nl))
  else ret tt.

(** The block under [with open(output_file, 'w', ...) as outfile:]. *)
Definition merge_block (self : t) (env : Env) (source_dir : string) : IO unit :=
  let timestamp := strftime (now env) "%Y-%m-%d %H:%M:%S" in
  write env ("Generated on: " ++ timestamp ++ nl ++ nl) ;;
  write env ("Directory Structure:" ++ nl) ;;
  write env ("===================" ++ nl) ;;
  listing <- get_directory_structure_call env source_dir ;;
  write env listing ;;
  write env (nl ++ nl) ;;
  write env ("File Contents:" ++ nl) ;;
  write env ("=============" ++ nl ++ nl) ;;
  entries <- os_walk_io env source_dir ;;
  for_each entries (fun '(root, _, files) =>
    for_each files (process_file self env source_dir root)).

(** The [with] statement once the output file is open: the block, then
    the closing of the file. *)
Definition merge_body (self : t) (env : Env) (source_dir : string) : IO unit :=
  with_open env (merge_block self env source_dir).

(** [merge_files] returns the pair [(success, message)]; the model also
    returns the text of the output file after a merge that succeeded.
    After a failure the file, if it was opened, holds some part of what
    was written, which the model leaves open. *)
Definition merge_files (self : t) (env : Env) (source_dir output_file : string)
  : (bool * string) * option string :=
  match open_output env with
  | Some e => ((false, "Error during merge: " ++ e), None)
  | None =>
      match merge_body self env source_dir {| written := ""; calls := 0 |} with
      | (inr _, o) => ((true, "Files merged successfully!"), Some (written o))
      | (inl e, o) => ((false, "Error during merge: " ++ e), None)
      end
  end.

(** The output file name [main] builds from [os.getcwd()]. *)
Definition output_file_name (env : Env) : string :=
  let dir_name := PosixPath.basename (cwd env) in
  let timestamp := strftime (now env) "%Y%m%d_%H%M%S" in
  dir_name ++ "_merged_" ++ timestamp ++ ".txt".

Definition main (env : Env) : (bool * string) * option string :=
  let merger := init in
  let current_dir := cwd env in
  merge_files merger env current_dir (output_file_name env).

End FileMerger.

(* ================================================================== *)
(** ** [is_text_file] on arguments of any type *)
(* ================================================================== *)

Module Dynamic.
Import PyStr FileMerger.

(** Python does not fix the type of [file_path]. *)
Inductive PyArg : Type :=
| ArgStr (s : string)             (* a str *)
| ArgBytes (b : string)           (* a bytes object *)
| ArgPath (s : string)            (* a pathlib path; os.fspath gives the str s *)
| ArgOther (type_name : string).  (* any other object: None, an int, a list *)

Inductive PyExc : Type :=
| TypeError (msg : string)
| AttributeError (msg : string).

(** A value that is a str or a bytes object. *)
Inductive Text : Type :=
| Str (s : string)
| Bytes (b : string).

(** [os.path.basename(p)] starts with [os.fspath(p)], which accepts a
    str, a bytes object and a path object and raises on the rest. *)
Definition basename_dyn (p : PyArg) : PyExc + Text :=
  match p with
  | ArgStr s => inr (Str (PosixPath.basename s))
  | ArgBytes b => inr (Bytes (PosixPath.basename b))
  | ArgPath s => inr (Str (PosixPath.basename s))
  | ArgOther type_name =>
      inl (TypeError ("expected str, bytes or os.PathLike object, not " ++ type_name))
  end.

(** [x in S] for a set of str: a bytes object equals no str. *)
Definition text_in (x : Text) (S : list string) : bool :=
  match x with
  | Str s => mem s S
  | Bytes _ => false
  end.

(** [x.startswith(prefix)] for a str [prefix]. *)
Definition startswith_dyn (x : Text) (prefix : string) : PyExc + bool :=
  match x with
  | Str s => inr (startswith s prefix)
  | Bytes _ =>
      inl (TypeError "startswith first arg must be bytes or a tuple of bytes, not str")
  end.

(** [file_path.lower()]: a method of str and of bytes, not of a path
    object. *)
Definition lower_dyn (p : PyArg) : PyExc + Text :=
  match p with
  | ArgStr s => inr (Str (lower s))
  | ArgBytes b => inr (Bytes (lower b))
  | ArgPath _ => inl (AttributeError "'PosixPath' object has no attribute 'lower'")
  | ArgOther type_name =>
      inl (AttributeError ("'" ++ type_name ++ "' object has no attribute 'lower'"))
  end.

(** The second component of [os.path.splitext(x)]. *)
Definition splitext_ext (x : Text) : Text :=
  match x with
  | Str s => Str (snd (PosixPath.splitext s))
  | Bytes b => Bytes (snd (PosixPath.splitext b))
  end.

(** The method, statement by statement; [or] evaluates its second
    operand only when the first is false. *)
Definition is_text_file_dyn (self : t) (file_path : PyArg) : PyExc + bool :=
  match basename_dyn file_path with
  | inl e => inl e
  | inr filename =>
      if text_in filename (exclude_files self) then inr false
      else
        match startswith_dyn filename (output_pattern self) with
        | inl e => inl e
        | inr true => inr false
        | inr false =>
            match lower_dyn file_path with
            | inl e => inl e
            | inr lowered =>
                inr (text_in (splitext_ext lowered) (supported_extensions self))
            end
        end
  end.

End Dynamic.

(* ================================================================== *)
(** ** The expected output, in closed form *)
(* ================================================================== *)

Module Expected.
Import PyStr PosixPath FileMerger.

(** The line that frames a file label. *)
Definition delimiter : string := times "=" 80.

(** The label of a file between two delimiter lines, and an empty
    line. *)
Definition header_block (relative_path : string) : string :=
  delimiter ++ nl ++ "File: " ++ relative_path ++ nl ++ delimiter ++ nl ++ nl.

(** The note left for a file that could not be read, and an empty
    line. *)
Definition error_line (file_path msg : string) : string :=
  "Error reading file " ++ file_path ++ ": " ++ msg ++ nl ++ nl.

(** What one file of the walk contributes to the output when every
    write succeeds. *)
Definition section_of (self : t) (env : Env) (source_dir root : string) (f : File)
  : string :=
  let file_path := PosixPath.join root (fname f) in
  let relative_path := relpath (cwd env) file_path source_dir in
  if is_text_file self file_path then
    match outcome f with
    | Readable content => header_block relative_path ++ content ++ nl ++ nl
    | OpenFails msg => error_line file_path msg
    | ReadFails msg => header_block relative_path ++ error_line file_path msg
    end
  else "".

Definition concat_all (l : list string) : string := fold_right append "" l.

(** The content part: the sections of all files, in the order of the
    walk. *)
Definition sections (self : t) (env : Env) (source_dir : string) : string :=
  concat_all
    (map (fun entry : string * list string * list File =>
            let '(root, _, files) := entry in
            concat_all (map (section_of self env source_dir root) files))
         (os_walk env source_dir)).

(** Everything before the content part. *)
Definition preamble (env : Env) (source_dir : string) : string :=
  "Generated on: " ++ strftime (now env) "%Y-%m-%d %H:%M:%S" ++ nl
  ++ nl
  ++ "Directory Structure:" ++ nl
  ++ times "=" 19 ++ nl
  ++ get_directory_structure env source_dir ++ nl
  ++ nl
  ++ "File Contents:" ++ nl
  ++ times "=" 13 ++ nl
  ++ nl.

(** Every call of [outfile.write] succeeds. *)
Definition no_write_fault (env : Env) : Prop :=
  forall k, write_fault env k = None.

(** The output file right after it was opened for writing. *)
Definition fresh : OutFile := {| written := ""; calls := 0 |}.

(** [sub in s] *)
Fixpoint contains (s sub : string) : bool :=
  String.prefix sub s
  || match s with
     | EmptyString => false
     | String _ s' => contains s' sub
     end.

(** Whatever happens, the text already in the output file stays. *)
Definition appends {A} (m : IO A) : Prop :=
  forall o, exists rest, written (snd (m o)) = written o ++ rest.

(** A decimal digit. *)
Definition is_digit (c : ascii) : bool :=
  (48 <=? nat_of_ascii c)%nat && (nat_of_ascii c <=? 57)%nat.

(** [s] has the shape of [pat], where a [9] in [pat] stands for any
    decimal digit and every other character for itself. *)
Fixpoint matches_pattern (pat s : string) : bool :=
  match pat, s with
  | EmptyString, EmptyString => true
  | String p pat', String c s' =>
      (if Ascii.eqb p "9" then is_digit c else Ascii.eqb c p)
      && matches_pattern pat' s'
  | _, _ => false
  end.

(** The text of a readable file. *)
Definition content_of (f : File) : string :=
  match outcome f with
  | Readable c => c
  | OpenFails _ | ReadFails _ => ""
  end.

(** The listing of a tree, written by recursion on the tree: the line
    of the directory at depth [n], the lines of its files one unit
    deeper, then the listings of its sub-directories at depth [n + 1]. *)
Fixpoint tree_lines (n : nat) (name : string) (d : Dir) : list string :=
  match d with
  | MkDir files subdirs =>
      ((times "  " n ++ name ++ "/")
         :: map (fun f => times "  " (n + 1) ++ fname f) files)
        ++ flat_map (fun sd => tree_lines (n + 1) (fst sd) (snd sd)) subdirs
  end.

(** The directories and the files of a tree. *)
Fixpoint count_dirs (d : Dir) : nat :=
  match d with
  | MkDir _ subdirs => S (list_sum (map (fun sd => count_dirs (snd sd)) subdirs))
  end.

Fixpoint count_files (d : Dir) : nat :=
  match d with
  | MkDir files subdirs =>
      List.length files + list_sum (map (fun sd => count_files (snd sd)) subdirs)
  end.

(** The names of the sub-directories of a tree are names a file system
    gives: not empty and without a separator. *)
Fixpoint valid_names (d : Dir) : bool :=
  match d with
  | MkDir _ subdirs =>
      forallb (fun sd => negb (String.eqb (fst sd) "")
                         && (count (fst sd) sep =? 0)%nat
                         && valid_names (snd sd))
              subdirs
  end.

(** An exception of the computation [m] is always one raised by a
    write to the output file, by closing it or by the walk of [top]. *)
Definition raises_only_faults {A} (env : Env) (top : string) (m : IO A) : Prop :=
  forall o e o',
    m o = (inl e, o') ->
    (exists k, write_fault env k = Some e)
    \/ close_fault env = Some e
    \/ walk_fault env top = Some e.

(** The line break. *)
Definition newline : ascii := ascii_of_nat 10.

(** No name of a visited directory and no name of a file in it holds a
    line break. *)
Definition one_line_names (entries : list (string * list string * list File)) : Prop :=
  Forall (fun e : string * list string * list File =>
            count (basename (fst (fst e))) newline = 0%nat
            /\ Forall (fun f => count (fname f) newline = 0%nat) (snd e))
         entries.

(** A name a file system gives a file or a directory: not empty,
    without a separator, and neither [.] nor [..]. *)
Definition valid_name (n : string) : bool :=
  negb (String.eqb n "") && (count n sep =? 0)%nat
  && negb (String.eqb n ".") && negb (String.eqb n "..").

(** The path [os.walk] and the loop build for an entry reached from
    [top] through the names [names]. *)
Definition path_below (top : string) (names : list string) : string :=
  fold_left PosixPath.join names top.

(** The tail of a path: a separator before each name. *)
Definition tail_path (names : list string) : string :=
  concat_all (map (fun n => String sep n) names).

(** What the loop of [normpath] keeps is a piece of its input that is
    not empty. *)
Definition kept (x : string) : Prop := x <> "" /\ count x sep = 0%nat.

(** The walk of a tree, with each visited directory given by the chain
    of names that leads to it from the top. *)
Fixpoint walk_chains (pre : list string) (d : Dir)
  : list (list string * list string * list File) :=
  match d with
  | MkDir files subdirs =>
      (pre, map fst subdirs, files)
        :: flat_map (fun sd => walk_chains (pre ++ [fst sd])%list (snd sd)) subdirs
  end.

(** Every sub-directory of the tree has a valid name. *)
Fixpoint valid_tree (d : Dir) : bool :=
  match d with
  | MkDir _ subdirs =>
      forallb (fun sd => valid_name (fst sd) && valid_tree (snd sd)) subdirs
  end.

(** The files of a directory the filter accepts. *)
Definition accepted (self : t) (root : string) (files : list File) : list File :=
  filter (fun f => is_text_file self (PosixPath.join root (fname f))) files.

(** Induction on a tree, with the property at hand for every
    sub-directory. *)
Fixpoint Dir_nested_ind (P : Dir -> Prop)
         (H : forall files subdirs,
             Forall (fun sd => P (snd sd)) subdirs -> P (MkDir files subdirs))
         (d : Dir) : P d :=
  match d with
  | MkDir files subdirs =>
      H files subdirs
        ((fix go (l : list (string * Dir)) : Forall (fun sd => P (snd sd)) l :=
            match l with
            | [] => Forall_nil _
            | sd :: l' => Forall_cons sd (Dir_nested_ind P H (snd sd)) (go l')
            end) subdirs)
  end.

End Expected.

(* ================================================================== *)
(** ** Concrete directories and runs *)
(* ================================================================== *)

Module Scenarios.
Import FileMerger.

Definition noon : DateTime :=
  {| year := 2024; month := 1; day := 1; hour := 12; minute := 0; second := 0 |}.

Definition five_past_noon : DateTime :=
  {| year := 2024; month := 1; day := 1; hour := 12; minute := 5; second := 0 |}.

(** An output file in a directory that does not exist. *)
Definition unwritable_env : Env :=
  {| cwd := "/home/u/proj";
     now := noon;
     fs := fun _ => Some (MkDir [{| fname := "a.py"; outcome := Readable "x = 1" |}] []);
     open_output := Some "[Errno 2] No such file or directory: '/nowhere/out.txt'";
     write_fault := fun _ => None;
     close_fault := None;
     walk_fault := fun _ => None |}.

(** A disk that fills up at the fourth write: the exception leaves the
    block and the merge fails. *)
Definition full_disk_env : Env :=
  {| cwd := "/home/u/proj";
     now := noon;
     fs := fun _ => Some (MkDir [{| fname := "a.py"; outcome := Readable "x = 1" |}] []);
     open_output := None;
     write_fault := fun k => if (k =? 3)%nat
                             then Some "[Errno 28] No space left on device"
                             else None;
     close_fault := None;
     walk_fault := fun _ => None |}.

(** A directory with one source file, an output file that opens and a
    disk that takes every write. *)
Definition sample_env : Env :=
  {| cwd := "/home/u/proj";
     now := noon;
     fs := fun p => if String.eqb p "/home/u/proj"
                    then Some (MkDir [{| fname := "a.py"; outcome := Readable "x = 1" |}] [])
                    else None;
     open_output := None;
     write_fault := fun _ => None;
     close_fault := None;
     walk_fault := fun _ => None |}.

(** A directory in which [secret.txt] may not be opened. *)
Definition denied_env : Env :=
  {| cwd := "/home/u/proj";
     now := noon;
     fs := fun p =>
             if String.eqb p "/home/u/proj"
             then Some (MkDir
                          [{| fname := "secret.txt";
                              outcome := OpenFails "[Errno 13] Permission denied: '/home/u/proj/secret.txt'" |};
                           {| fname := "b.txt"; outcome := Readable "hello" |}]
                          [])
             else None;
     open_output := None;
     write_fault := fun _ => None;
     close_fault := None;
     walk_fault := fun _ => None |}.

(** The same directory when [secret.txt] opens and cannot be decoded. *)
Definition undecodable_env : Env :=
  {| cwd := "/home/u/proj";
     now := noon;
     fs := fun p =>
             if String.eqb p "/home/u/proj"
             then Some (MkDir
                          [{| fname := "secret.txt";
                              outcome := ReadFails "'utf-8' codec can't decode byte 0xff in position 0: invalid start byte" |};
                           {| fname := "b.txt"; outcome := Readable "hello" |}]
                          [])
             else None;
     open_output := None;
     write_fault := fun _ => None;
     close_fault := None;
     walk_fault := fun _ => None |}.

(** The directory [/home/u/proj] with the given files and no
    sub-directory. *)
Definition abc_env (d : DateTime) (files : list File) : Env :=
  {| cwd := "/home/u/proj";
     now := d;
     fs := fun p => if String.eqb p "/home/u/proj" then Some (MkDir files []) else None;
     open_output := None;
     write_fault := fun _ => None;
     close_fault := None;
     walk_fault := fun _ => None |}.

(** The first run in [/home/u/proj].  The output file is created before
    the directory is walked, so the walk meets it, still empty. *)
Definition first_run_env : Env :=
  {| cwd := "/home/u/proj";
     now := noon;
     fs := fun p =>
             if String.eqb p "/home/u/proj"
             then Some (MkDir
                          [{| fname := "app.py"; outcome := Readable "print(1)" |};
                           {| fname := "proj_merged_20240101_120000.txt";
                              outcome := Readable "" |}]
                          [])
             else None;
     open_output := None;
     write_fault := fun _ => None;
     close_fault := None;
     walk_fault := fun _ => None |}.

(** The text the first run leaves in its output file. *)
Definition first_output : string :=
  match snd (main first_run_env) with
  | Some text => text
  | None => ""
  end.

(** The second run, five minutes later: the directory now also holds the
    output of the first run. *)
Definition rerun_env : Env :=
  {| cwd := "/home/u/proj";
     now := five_past_noon;
     fs := fun p =>
             if String.eqb p "/home/u/proj"
             then Some (MkDir
                          [{| fname := "app.py"; outcome := Readable "print(1)" |};
                           {| fname := output_file_name first_run_env;
                              outcome := Readable first_output |};
                           {| fname := "proj_merged_20240101_120500.txt";
                              outcome := Readable "" |}]
                          [])
             else None;
     open_output := None;
     write_fault := fun _ => None;
     close_fault := None;
     walk_fault := fun _ => None |}.

(** A tree with the files [root/sub1/x.txt] and [root/sub2/sub3/y.txt],
    reached through the relative path [root]. *)
Definition nested_env : Env :=
  {| cwd := "/home/u";
     now := noon;
     fs := fun p =>
             if String.eqb p "root"
             then Some (MkDir []
                          [("sub1", MkDir [{| fname := "x.txt"; outcome := Readable "x" |}] []);
                           ("sub2", MkDir []
                              [("sub3", MkDir [{| fname := "y.txt"; outcome := Readable "y" |}] [])])])
             else None;
     open_output := None;
     write_fault := fun _ => None;
     close_fault := None;
     walk_fault := fun _ => None |}.

(** The working directory [/app] with a package directory [app] in it. *)
Definition app_env : Env :=
  {| cwd := "/app";
     now := noon;
     fs := fun p =>
             if String.eqb p "/app"
             then Some (MkDir
                          [{| fname := "main.py"; outcome := Readable "import app" |}]
                          [("app", MkDir [{| fname := "x.py"; outcome := Readable "x = 1" |}] [])])
             else None;
     open_output := None;
     write_fault := fun _ => None;
     close_fault := None;
     walk_fault := fun _ => None |}.

(** An output file that takes every write and cannot be closed. *)
Definition close_env : Env :=
  {| cwd := "/home/u/proj";
     now := noon;
     fs := fun _ => Some (MkDir [{| fname := "a.py"; outcome := Readable "x = 1" |}] []);
     open_output := None;
     write_fault := fun _ => None;
     close_fault := Some "[Errno 28] No space left on device";
     walk_fault := fun _ => None |}.

(** A source path with a NUL character, which [os.walk] refuses. *)
Definition nul_env : Env :=
  {| cwd := "/home/u/proj";
     now := noon;
     fs := fun _ => None;
     open_output := None;
     write_fault := fun _ => None;
     close_fault := None;
     walk_fault := fun p => if String.eqb p ("a" ++ String zero "b")
                            then Some "embedded null byte" else None |}.

(** A source directory that cannot be listed. *)
Definition missing_env : Env :=
  {| cwd := "/home/u/proj";
     now := noon;
     fs := fun _ => None;
     open_output := None;
     write_fault := fun _ => None;
     close_fault := None;
     walk_fault := fun _ => None |}.

End Scenarios.

(* ================================================================== *)
(** ** Facts about the string and path primitives *)
(* ================================================================== *)

Module PathFacts.
Import PyStr PosixPath.

Lemma mem_In (x : string) (S : list string) : mem x S = true <-> In x S.
Proof.
  unfold mem. rewrite existsb_exists. split.
  - intros [y [Hy E]]. apply String.eqb_eq in E. now subst.
  - intros H. exists x. split; [assumption | apply String.eqb_refl].
Qed.

Lemma mem_not_In (x : string) (S : list string) : mem x S = false <-> ~ In x S.
Proof.
  rewrite <- mem_In. destruct (mem x S); split; intros; congruence.
Qed.

(** [startswith] is the prefix relation. *)
Lemma startswith_app (s p : string) :
  startswith s p = true <-> exists rest, s = p ++ rest.
Proof.
  unfold startswith. revert s. induction p as [|a p IH]; intros s; simpl.
  - split; [intros _; now exists s | now destruct s].
  - destruct s as [|b s]; simpl.
    + split; [discriminate | intros [r Hr]; discriminate].
    + destruct (ascii_dec a b) as [->|Hab].
      * rewrite IH. split; intros [r Hr]; exists r; [now subst | now inversion Hr].
      * split; [discriminate | intros [r Hr]; inversion Hr; congruence].
Qed.

(** A character that does not occur is not found. *)
Lemma rfind_from_absent (c : ascii) (s : string) :
  count s c = 0%nat -> forall i acc, rfind_from c s i acc = acc.
Proof.
  induction s as [|a s IH]; simpl; intros H i acc; [reflexivity|].
  destruct (Ascii.eqb a c); [discriminate | now apply IH].
Qed.

Lemma rfind_from_lower_bound (c : ascii) (s : string) :
  forall i acc, (-1 <= acc)%Z -> (0 <= i)%Z -> (-1 <= rfind_from c s i acc)%Z.
Proof.
  induction s as [|a s IH]; simpl; intros i acc Hacc Hi; [assumption|].
  apply IH; [destruct (Ascii.eqb a c) |]; lia.
Qed.

Lemma rfind_lower_bound (s : string) (c : ascii) : (-1 <= rfind s c)%Z.
Proof. unfold rfind. apply rfind_from_lower_bound; lia. Qed.

(** Lower-casing neither creates nor removes a dot. *)
Lemma lower_char_dot (c : ascii) :
  Ascii.eqb (lower_char c) extsep = Ascii.eqb c extsep.
Proof.
  destruct c as [[] [] [] [] [] [] [] []]; reflexivity.
Qed.

Lemma count_lower_dot (s : string) : count (lower s) extsep = count s extsep.
Proof.
  induction s as [|a s IH]; simpl; [reflexivity|].
  rewrite lower_char_dot, IH. reflexivity.
Qed.

(** A name whose only dot is its first character has no extension. *)
Lemma splitext_leading_dot (t : string) :
  count t extsep = 0%nat -> snd (splitext (String extsep t)) = "".
Proof.
  intros Hdot. unfold splitext.
  assert (Hd : rfind (String extsep t) extsep = 0%Z).
  { unfold rfind. cbn [rfind_from]. rewrite Ascii.eqb_refl.
    now apply rfind_from_absent. }
  rewrite Hd.
  pose proof (rfind_lower_bound (String extsep t) sep) as Hlb.
  destruct (Z.ltb_spec (rfind (String extsep t) sep) 0) as [Hlt|Hge]; [|reflexivity].
  replace (Z.to_nat (0 - (rfind (String extsep t) sep + 1))) with 0%nat by lia.
  reflexivity.
Qed.

(** *** Paths of the form [root/name] *)

Lemma append_assoc (a b c : string) : (a ++ b) ++ c = a ++ b ++ c.
Proof. induction a as [|x a IH]; simpl; [reflexivity | now rewrite IH]. Qed.

Lemma append_cancel_l (a b c : string) : a ++ b = a ++ c -> b = c.
Proof.
  induction a as [|x a IH]; simpl; intros E; [assumption|].
  injection E as E. now apply IH.
Qed.

Lemma append_nil_r (a : string) : a ++ "" = a.
Proof. induction a as [|x a IH]; simpl; [reflexivity | now rewrite IH]. Qed.

Lemma drop_app (a b : string) (m : nat) :
  drop (String.length a + m) (a ++ b) = drop m b.
Proof. induction a as [|x a IH]; simpl; [reflexivity | exact IH]. Qed.

Lemma rfind_from_app (c : ascii) (a b : string) :
  forall i acc,
    rfind_from c (a ++ b) i acc
    = rfind_from c b (i + Z.of_nat (String.length a))%Z (rfind_from c a i acc).
Proof.
  induction a as [|x a IH]; intros i acc; cbn [append rfind_from String.length].
  - now rewrite Z.add_0_r.
  - rewrite IH. f_equal. lia.
Qed.

(** [rfind_from] either keeps [acc] or finds the character at [i] plus
    its position in [s]. *)
Lemma rfind_from_spec (c : ascii) (s : string) :
  forall i acc,
    rfind_from c s i acc
    = if (count s c =? 0)%nat then acc else (i + rfind s c)%Z.
Proof.
  unfold rfind.
  induction s as [|a s IH]; intros i acc; cbn [rfind_from count]; [reflexivity|].
  rewrite (IH (i + 1)%Z), (IH (0 + 1)%Z).
  destruct (Ascii.eqb a c); cbn [Nat.eqb];
    destruct (count s c =? 0)%nat; lia.
Qed.

Lemma rfind_from_upper_bound (c : ascii) (s : string) :
  forall i acc,
    (acc < i + Z.of_nat (String.length s))%Z ->
    (rfind_from c s i acc < i + Z.of_nat (String.length s))%Z.
Proof.
  induction s as [|a s IH]; intros i acc H; cbn [rfind_from String.length] in *;
    [assumption|].
  specialize (IH (i + 1)%Z (if Ascii.eqb a c then i else acc)).
  destruct (Ascii.eqb a c); lia.
Qed.

Lemma rfind_upper_bound (s : string) (c : ascii) :
  (rfind s c < Z.of_nat (String.length s))%Z.
Proof. unfold rfind. apply (rfind_from_upper_bound c s 0 (-1))%Z. lia. Qed.

Lemma rfind_present (s : string) (c : ascii) :
  count s c <> 0%nat -> (0 <= rfind s c)%Z.
Proof.
  unfold rfind. induction s as [|a s IH]; cbn [count rfind_from]; [congruence|].
  intros H. rewrite rfind_from_spec.
  destruct (Ascii.eqb a c) eqn:E.
  - destruct (count s c =? 0)%nat eqn:E0; [lia|].
    apply Nat.eqb_neq in E0. specialize (IH E0). unfold rfind. lia.
  - destruct (count s c =? 0)%nat eqn:E0.
    + apply Nat.eqb_eq in E0. congruence.
    + apply Nat.eqb_neq in E0. specialize (IH E0). unfold rfind. lia.
Qed.

Section RootSlashName.
Variables a n : string.
Hypothesis Hn : count n sep = 0%nat.

Let p : string := a ++ String sep n.
Let L : Z := Z.of_nat (String.length a).

Lemma rfind_sep_root_name : rfind p sep = L.
Proof.
  unfold rfind, p. rewrite rfind_from_app. cbn [rfind_from].
  rewrite Ascii.eqb_refl. now apply rfind_from_absent.
Qed.

Lemma rfind_dot_root_name :
  rfind p extsep
  = if (count n extsep =? 0)%nat then rfind a extsep
    else (L + 1 + rfind n extsep)%Z.
Proof.
  unfold rfind at 1. unfold p. rewrite rfind_from_app. cbn [rfind_from].
  change (Ascii.eqb sep extsep) with false. cbv iota.
  rewrite rfind_from_spec. reflexivity.
Qed.

Lemma drop_root_name (j : Z) :
  (0 <= j)%Z -> drop (Z.to_nat (L + 1 + j)) p = drop (Z.to_nat j) n.
Proof.
  intros Hj. unfold p, L.
  replace (Z.to_nat (Z.of_nat (String.length a) + 1 + j))
    with (String.length a + S (Z.to_nat j))%nat by lia.
  rewrite drop_app. reflexivity.
Qed.

Lemma basename_root_name : basename p = n.
Proof.
  unfold basename, slice_from. rewrite rfind_sep_root_name.
  replace (L + 1)%Z with (L + 1 + 0)%Z by lia.
  rewrite drop_root_name by lia. reflexivity.
Qed.

Lemma splitext_scan_root_name (k : Z) (cnt : nat) :
  (0 <= k)%Z ->
  forall j, (0 <= j)%Z ->
    snd (splitext_scan cnt p (L + 1 + j) (L + 1 + k))
    = snd (splitext_scan cnt n j k).
Proof.
  intros Hk. induction cnt as [|cnt IH]; intros j Hj; cbn [splitext_scan];
    [reflexivity|].
  unfold slice.
  replace (L + 1 + j + 1 - (L + 1 + j))%Z with (j + 1 - j)%Z by lia.
  rewrite drop_root_name by lia.
  destruct (negb _).
  - cbn [snd]. unfold slice_from. now apply drop_root_name.
  - replace (L + 1 + j + 1)%Z with (L + 1 + (j + 1))%Z by lia.
    apply IH. lia.
Qed.

(** The extension of [root/name] is the extension of [name]. *)
Lemma splitext_root_name : snd (splitext p) = snd (splitext n).
Proof.
  unfold splitext. rewrite rfind_sep_root_name, rfind_dot_root_name.
  replace (rfind n sep) with (-1)%Z
    by (unfold rfind; now rewrite rfind_from_absent).
  pose proof (rfind_upper_bound a extsep) as Hub. fold L in Hub.
  destruct (count n extsep =? 0)%nat eqn:E.
  - apply Nat.eqb_eq in E.
    replace (rfind n extsep) with (-1)%Z
      by (unfold rfind; now rewrite rfind_from_absent).
    destruct (Z.ltb_spec L (rfind a extsep)) as [Hlt|_]; [lia|].
    reflexivity.
  - apply Nat.eqb_neq in E. pose proof (rfind_present n extsep E) as Hk.
    destruct (Z.ltb_spec L (L + 1 + rfind n extsep)) as [_|Hge]; [|lia].
    destruct (Z.ltb_spec (-1) (rfind n extsep)) as [_|Hge]; [|lia].
    replace (L + 1 + rfind n extsep - (L + 1))%Z with (rfind n extsep - (-1 + 1))%Z by lia.
    replace (L + 1)%Z with (L + 1 + 0)%Z at 1 by lia.
    change (-1 + 1)%Z with 0%Z.
    now apply splitext_scan_root_name.
Qed.

End RootSlashName.

Lemma lower_char_sep (c : ascii) :
  Ascii.eqb (lower_char c) sep = Ascii.eqb c sep.
Proof.
  destruct c as [[] [] [] [] [] [] [] []]; reflexivity.
Qed.

Lemma count_lower_sep (s : string) : count (lower s) sep = count s sep.
Proof.
  induction s as [|a s IH]; simpl; [reflexivity|].
  rewrite lower_char_sep, IH. reflexivity.
Qed.

Lemma lower_app (a b : string) : lower (a ++ b) = lower a ++ lower b.
Proof. induction a as [|x a IH]; simpl; [reflexivity | now rewrite IH]. Qed.

Lemma endswith_char_app (s : string) (c : ascii) :
  endswith_char s c = true -> exists a, s = a ++ String c "".
Proof.
  induction s as [|x s IH]; [discriminate|].
  destruct s as [|y s].
  - cbn [endswith_char]. intros E. apply Ascii.eqb_eq in E. subst.
    now exists "".
  - intros E. change (endswith_char (String y s) c = true) in E.
    destruct (IH E) as [a Ha]. exists (String x a). simpl. now rewrite <- Ha.
Qed.

(** [os.path.join(root, name)] for a name without a separator: the name
    itself under an empty root, else the root, one separator, the name. *)
Lemma join_cases (root name : string) :
  count name sep = 0%nat ->
  PosixPath.join root name = name
  \/ exists a, PosixPath.join root name = a ++ String sep name.
Proof.
  intros Hn. unfold PosixPath.join.
  assert (Hs : startswith name (String sep "") = false).
  { unfold startswith. destruct name as [|c name]; [reflexivity|].
    cbn [count] in Hn. cbn [String.prefix].
    destruct (ascii_dec sep c) as [<-|_]; [|reflexivity].
    rewrite Ascii.eqb_refl in Hn. discriminate. }
  rewrite Hs. destruct (String.eqb_spec root "") as [->|_]; cbn [orb].
  - now left.
  - right. destruct (endswith_char root sep) eqn:E.
    + destruct (endswith_char_app _ _ E) as [a ->]. exists a.
      now rewrite append_assoc.
    + now exists root.
Qed.

Lemma basename_join (root name : string) :
  count name sep = 0%nat -> basename (PosixPath.join root name) = name.
Proof.
  intros Hn. destruct (join_cases root name Hn) as [-> | [a ->]].
  - unfold basename, rfind. rewrite rfind_from_absent by assumption. reflexivity.
  - now apply basename_root_name.
Qed.

Lemma splitext_lower_join (root name : string) :
  count name sep = 0%nat ->
  snd (splitext (lower (PosixPath.join root name))) = snd (splitext (lower name)).
Proof.
  intros Hn. destruct (join_cases root name Hn) as [-> | [a ->]]; [reflexivity|].
  rewrite lower_app. cbn [lower].
  change (lower_char sep) with sep.
  apply splitext_root_name. now rewrite count_lower_sep.
Qed.

End PathFacts.

(* ================================================================== *)
(** ** The filter [is_text_file] *)
(* ================================================================== *)

Module FilterFacts.
Import PyStr PosixPath FileMerger PathFacts.

(** The rule the method implements: a path is accepted exactly when its
    base name is not excluded, does not start with the output pattern, and
    the extension of the lower-cased path is listed. *)
Lemma is_text_file_iff (self : t) (file_path : string) :
  is_text_file self file_path = true <->
    In (snd (splitext (lower file_path))) (supported_extensions self)
    /\ ~ In (basename file_path) (exclude_files self)
    /\ ~ (exists rest, basename file_path = output_pattern self ++ rest).
Proof.
  unfold is_text_file.
  rewrite <- mem_In, <- mem_not_In, <- startswith_app.
  destruct (mem (basename file_path) (exclude_files self));
    destruct (startswith (basename file_path) (output_pattern self)); simpl;
    intuition congruence.
Qed.

Lemma is_text_file_excluded (self : t) (file_path : string) :
  In (basename file_path) (exclude_files self) ->
  is_text_file self file_path = false.
Proof.
  intros H. apply mem_In in H. unfold is_text_file. now rewrite H.
Qed.

(** The three sample names of the filter rule on which the script agrees
    with its description. *)
Example is_text_file_samples :
  is_text_file init "app.py" = true
  /\ is_text_file init "file_merger.py" = false
  /\ is_text_file init "photo.png" = false.
Proof. repeat split; vm_compute; reflexivity. Qed.

(** C1. The filter is meant to reject the output files of earlier runs,
    yet on [readme_merged_20240101_120000.txt], the output of a run in a
    directory [readme], it answers [True]: the base name contains the
    pattern [_merged_] but does not start with it, and [.txt] is listed. *)
Theorem is_text_file_accepts_readme_merged :
  is_text_file init "readme_merged_20240101_120000.txt" = true
  /\ startswith (basename "readme_merged_20240101_120000.txt") (output_pattern init) = false
  /\ snd (splitext (lower "readme_merged_20240101_120000.txt")) = ".txt".
Proof. repeat split; vm_compute; reflexivity. Qed.

(** The script's own file name is in the exclusion set. *)
Lemma is_text_file_own_source (file_path : string) :
  basename file_path = "file_merger.py" ->
  is_text_file init file_path = false.
Proof.
  intros H. apply is_text_file_excluded. rewrite H. simpl. now left.
Qed.

(** Names without a dot, with several dots, with unusual characters, and
    the empty name. *)
Example is_text_file_odd_names :
  is_text_file init "Makefile" = false
  /\ is_text_file init "archive.tar.gz.txt" = true
  /\ is_text_file init "we ird~$name?.MD" = true
  /\ is_text_file init "" = false.
Proof. repeat split; vm_compute; reflexivity. Qed.

(** C9. On every str the method returns a boolean and raises nothing,
    whatever the characters and the dots of the path, although it does
    raise on arguments of other types: none of the operations it applies
    to a str can raise.  The boolean is the value of [is_text_file], which
    depends on the three attributes of the merger and on the path and on
    nothing else, so that equal arguments get equal answers; the method
    takes no part in the output file. *)
Theorem is_text_file_returns_on_every_str (self : t) (file_path : string) :
  Dynamic.is_text_file_dyn self (Dynamic.ArgStr file_path)
  = inr (is_text_file self file_path).
Proof.
  unfold Dynamic.is_text_file_dyn, is_text_file.
  cbn [Dynamic.basename_dyn Dynamic.text_in Dynamic.startswith_dyn
       Dynamic.lower_dyn Dynamic.splitext_ext].
  destruct (mem (basename file_path) (exclude_files self)); [reflexivity|].
  destruct (startswith (basename file_path) (output_pattern self)); reflexivity.
Qed.

(** X16. The method raises on what is not a str: [TypeError] on every
    bytes object, at [startswith]; [TypeError] on an object that is no
    path, at [os.path.basename]; and on a pathlib path [AttributeError] at
    [lower], unless the name is excluded or begins with the output pattern,
    in which case it returns [False] before it gets there. *)
Theorem is_text_file_raises_on_other_types (self : t) :
  (forall b,
      Dynamic.is_text_file_dyn self (Dynamic.ArgBytes b)
      = inl (Dynamic.TypeError
               "startswith first arg must be bytes or a tuple of bytes, not str"))
  /\ (forall s,
        Dynamic.is_text_file_dyn self (Dynamic.ArgPath s)
        = if mem (basename s) (exclude_files self)
             || startswith (basename s) (output_pattern self)
          then inr false
          else inl (Dynamic.AttributeError "'PosixPath' object has no attribute 'lower'"))
  /\ (forall type_name,
        Dynamic.is_text_file_dyn self (Dynamic.ArgOther type_name)
        = inl (Dynamic.TypeError
                 ("expected str, bytes or os.PathLike object, not " ++ type_name))).
Proof.
  repeat split; intros; unfold Dynamic.is_text_file_dyn;
    cbn [Dynamic.basename_dyn Dynamic.text_in Dynamic.startswith_dyn Dynamic.lower_dyn];
    try reflexivity.
  destruct (mem (basename s) (exclude_files self)); [reflexivity|].
  destruct (startswith (basename s) (output_pattern self)); reflexivity.
Qed.

(** In a directory, the filter looks at the file name only. *)
Lemma basename_plain (name : string) :
  count name sep = 0%nat -> basename name = name.
Proof.
  intros Hn. unfold basename, rfind. now rewrite rfind_from_absent.
Qed.

Lemma is_text_file_join (self : t) (root name : string) :
  count name sep = 0%nat ->
  is_text_file self (PosixPath.join root name) = is_text_file self name.
Proof.
  intros Hn. unfold is_text_file.
  now rewrite basename_join, splitext_lower_join, basename_plain.
Qed.

(** A name whose only dot is its first character gets the empty
    extension, also after lower-casing. *)
Lemma splitext_lower_dotfile (token : string) :
  count token extsep = 0%nat ->
  snd (splitext (lower (String extsep token))) = "".
Proof.
  intros Hdot.
  change (lower (String extsep token)) with (String extsep (lower token)).
  apply splitext_leading_dot. now rewrite count_lower_dot.
Qed.

End FilterFacts.

(* ================================================================== *)
(** ** What [merge_files] writes *)
(* ================================================================== *)

Module MergeFacts.
Import PyStr PosixPath FileMerger Expected Scenarios PathFacts FilterFacts.


(** *** Runs in which every write succeeds *)

Section NoWriteFault.
Variable self : t.
Variable env : Env.
Variable source_dir : string.
Hypothesis Hw : no_write_fault env.

Lemma write_ok (s : string) (o : OutFile) :
  write env s o = (inr tt, {| written := written o ++ s; calls := S (calls o) |}).
Proof. unfold write. now rewrite Hw. Qed.

Lemma process_file_ok (root : string) (f : File) (o : OutFile) :
  exists n,
    process_file self env source_dir root f o
    = (inr tt, {| written := written o ++ section_of self env source_dir root f;
                  calls := n |}).
Proof.
  unfold process_file, section_of.
  destruct (is_text_file self (PosixPath.join root (fname f))).
  - unfold try_except, copy_file, header_block, error_line, delimiter.
    destruct (outcome f) as [c|msg|msg]; unfold bind, raise, ret;
      repeat (rewrite write_ok; cbn [written calls]);
      eexists; repeat rewrite append_assoc; reflexivity.
  - exists (calls o). unfold ret. rewrite append_nil_r. now destruct o.
Qed.

Lemma for_each_files_ok (root : string) (files : list File) (o : OutFile) :
  exists n,
    for_each files (process_file self env source_dir root) o
    = (inr tt,
       {| written := written o
                     ++ concat_all (map (section_of self env source_dir root) files);
          calls := n |}).
Proof.
  revert o. induction files as [|f files IH]; intros o; simpl.
  - exists (calls o). unfold ret. rewrite append_nil_r. now destruct o.
  - unfold bind. destruct (process_file_ok root f o) as [n ->].
    destruct (IH {| written := written o ++ section_of self env source_dir root f;
                    calls := n |}) as [m ->].
    exists m. cbn [written]. now rewrite append_assoc.
Qed.

Lemma for_each_walk_ok (entries : list (string * list string * list File))
      (o : OutFile) :
  exists n,
    for_each entries
      (fun '(root, _, files) => for_each files (process_file self env source_dir root)) o
    = (inr tt,
       {| written := written o
            ++ concat_all
                 (map (fun entry : string * list string * list File =>
                         let '(root, _, files) := entry in
                         concat_all (map (section_of self env source_dir root) files))
                      entries);
          calls := n |}).
Proof.
  revert o. induction entries as [|[[root dirs] files] entries IH]; intros o; simpl.
  - exists (calls o). unfold ret. rewrite append_nil_r. now destruct o.
  - unfold bind. destruct (for_each_files_ok root files o) as [n ->].
    match goal with |- context [for_each entries _ ?o'] =>
      destruct (IH o') as [m ->] end.
    exists m. cbn [written]. now rewrite append_assoc.
Qed.

Hypothesis Hwalk : walk_fault env source_dir = None.

Lemma merge_block_ok :
  exists n,
    merge_block self env source_dir fresh
    = (inr tt, {| written := preamble env source_dir ++ sections self env source_dir;
                  calls := n |}).
Proof.
  unfold merge_block, get_directory_structure_call, os_walk_io, bind.
  rewrite Hwalk. unfold ret.
  repeat (rewrite write_ok; cbn [written calls fresh]).
  match goal with |- context [for_each _ _ ?o'] =>
    destruct (for_each_walk_ok (os_walk env source_dir) o') as [n ->] end.
  exists n. cbn [written]. unfold preamble, sections.
  change (times "=" 19) with "===================".
  change (times "=" 13) with "=============".
  repeat rewrite append_assoc. reflexivity.
Qed.

(** With a source directory whose walk does not raise and an output file
    that opens, takes every write and closes, the merge succeeds and the
    file holds the preamble followed by the sections. *)
Lemma merge_files_ok (output_file : string) :
  open_output env = None ->
  close_fault env = None ->
  merge_files self env source_dir output_file
  = ((true, "Files merged successfully!"),
     Some (preamble env source_dir ++ sections self env source_dir)).
Proof.
  intros Hopen Hclose. unfold merge_files, merge_body, with_open, close.
  rewrite Hopen, Hclose.
  change {| written := ""; calls := 0 |} with fresh.
  destruct merge_block_ok as [n ->]. reflexivity.
Qed.

End NoWriteFault.

(** *** Runs in which writes may fail *)

(** A successful write at the head of a sequence. *)
Lemma bind_write_inr (env : Env) (s : string) (k : IO unit) (o o' : OutFile) (r : unit) :
  bind (write env s) (fun _ => k) o = (inr r, o') ->
  k {| written := written o ++ s; calls := S (calls o) |} = (inr r, o').
Proof.
  unfold bind, write. destruct (write_fault env (calls o)); [discriminate | auto].
Qed.

Lemma appends_ret {A} (a : A) : appends (ret a).
Proof. intros o. exists "". simpl. now rewrite append_nil_r. Qed.

Lemma appends_raise {A} (msg : string) : appends (@raise A msg).
Proof. intros o. exists "". simpl. now rewrite append_nil_r. Qed.

Lemma appends_write (env : Env) (s : string) : appends (write env s).
Proof.
  intros o. unfold write. destruct (write_fault env (calls o)); simpl.
  - exists "". now rewrite append_nil_r.
  - now exists s.
Qed.

Lemma appends_bind {A B} (m : IO A) (k : A -> IO B) :
  appends m -> (forall a, appends (k a)) -> appends (bind m k).
Proof.
  intros Hm Hk o. unfold bind. destruct (Hm o) as [r1 H1].
  destruct (m o) as [[e|a] o1]; simpl in *.
  - now exists r1.
  - destruct (Hk a o1) as [r2 H2]. exists (r1 ++ r2).
    now rewrite H2, H1, append_assoc.
Qed.

Lemma appends_try_except {A} (m : IO A) (h : string -> IO A) :
  appends m -> (forall e, appends (h e)) -> appends (try_except m h).
Proof.
  intros Hm Hh o. unfold try_except. destruct (Hm o) as [r1 H1].
  destruct (m o) as [[e|a] o1]; simpl in *.
  - destruct (Hh e o1) as [r2 H2]. exists (r1 ++ r2).
    now rewrite H2, H1, append_assoc.
  - now exists r1.
Qed.

Lemma appends_for_each {A} (l : list A) (body : A -> IO unit) :
  (forall x, appends (body x)) -> appends (for_each l body).
Proof.
  intros Hb. induction l as [|x l IH]; simpl.
  - apply appends_ret.
  - apply appends_bind; auto.
Qed.

Create HintDb appends.
#[local] Hint Resolve appends_ret appends_raise appends_write : appends.

Lemma appends_process_file (self : t) (env : Env) (source_dir root : string) (f : File) :
  appends (process_file self env source_dir root f).
Proof.
  unfold process_file.
  destruct (is_text_file self (PosixPath.join root (fname f))); auto with appends.
  apply appends_try_except; [|auto with appends].
  unfold copy_file.
  destruct (outcome f);
    repeat (apply appends_bind; [auto with appends | intros ?]);
    auto with appends.
Qed.

(** A walk that returned at the head of a sequence. *)
Lemma bind_walk_inr {B} (env : Env) (top : string)
      (k : list (string * list string * list File) -> IO B) (o o' : OutFile) (r : B) :
  bind (os_walk_io env top) k o = (inr r, o') ->
  walk_fault env top = None /\ k (os_walk env top) o = (inr r, o').
Proof.
  unfold bind, os_walk_io. destruct (walk_fault env top); [discriminate | auto].
Qed.

(** A merge that went through went through its block and closed the
    file. *)
Lemma merge_body_inr (self : t) (env : Env) (source_dir : string)
      (r : unit) (o : OutFile) :
  merge_body self env source_dir fresh = (inr r, o) ->
  merge_block self env source_dir fresh = (inr r, o) /\ close_fault env = None.
Proof.
  unfold merge_body, with_open, close. intros H.
  destruct (merge_block self env source_dir fresh) as [[e|a] o1];
    destruct (close_fault env); try discriminate.
  injection H as -> ->. auto.
Qed.

Lemma merge_block_success_prefix (self : t) (env : Env) (source_dir : string)
      (r : unit) (o : OutFile) :
  merge_block self env source_dir fresh = (inr r, o) ->
  walk_fault env source_dir = None
  /\ exists rest, written o = preamble env source_dir ++ rest.
Proof.
  unfold merge_block, get_directory_structure_call. intros H.
  do 3 apply bind_write_inr in H.
  unfold bind at 1 in H. unfold bind at 1 in H.
  destruct (os_walk_io env source_dir _) as [[e|entries] o3] eqn:Hw1;
    [discriminate|].
  unfold os_walk_io in Hw1.
  destruct (walk_fault env source_dir) eqn:Hwalk; [discriminate|].
  injection Hw1 as _ <-. unfold ret in H.
  do 4 apply bind_write_inr in H.
  apply bind_walk_inr in H as [_ H].
  split; [reflexivity|].
  cbn [written calls fresh] in H.
  match type of H with for_each ?l ?body ?o7 = _ =>
    destruct (appends_for_each l body) with (o := o7) as [rest Hrest]
  end.
  - intros [[root dirs] files]. apply appends_for_each.
    intros f. apply appends_process_file.
  - rewrite H in Hrest. cbn [snd written] in Hrest.
    exists rest. rewrite Hrest. unfold preamble.
    change (times "=" 19) with "===================".
    change (times "=" 13) with "=============".
    repeat rewrite append_assoc. reflexivity.
Qed.

(** *** Failure of the whole merge *)

(** C4. When the output file cannot be opened, or an exception leaves the
    block that writes it, [merge_files] returns [False] together with the
    message [Error during merge: ] followed by the text of the exception,
    which is not empty; the result is an ordinary return value. *)
Theorem merge_files_reports_failure
        (self : t) (env : Env) (source_dir output_file e : string) :
  (open_output env = Some e
   \/ (open_output env = None
       /\ exists o, merge_body self env source_dir fresh = (inl e, o))) ->
  fst (merge_files self env source_dir output_file)
  = (false, "Error during merge: " ++ e)
  /\ snd (fst (merge_files self env source_dir output_file)) <> "".
Proof.
  intros H.
  assert (E : fst (merge_files self env source_dir output_file)
              = (false, "Error during merge: " ++ e)).
  { unfold merge_files. destruct H as [-> | [-> [o Ho]]]; [reflexivity|].
    change {| written := ""; calls := 0 |} with fresh. now rewrite Ho. }
  split; [exact E|]. rewrite E. discriminate.
Qed.

Lemma merge_files_reports_failure_witness :
  fst (merge_files init unwritable_env "/home/u/proj" "/nowhere/out.txt")
  = (false, "Error during merge: [Errno 2] No such file or directory: '/nowhere/out.txt'")
  /\ snd (fst (merge_files init unwritable_env "/home/u/proj" "/nowhere/out.txt")) <> "".
Proof.
  apply (merge_files_reports_failure init unwritable_env "/home/u/proj" "/nowhere/out.txt"
           "[Errno 2] No such file or directory: '/nowhere/out.txt'").
  left. reflexivity.
Defined.

Example merge_files_full_disk :
  fst (merge_files init full_disk_env "/home/u/proj" "/tmp/out.txt")
  = (false, "Error during merge: [Errno 28] No space left on device").
Proof. vm_compute. reflexivity. Qed.

(** *** The script's own file *)

(** C5. A path whose base name is exactly [file_merger.py], the script's
    own file name, is rejected by the filter, and the merge loop writes
    nothing for a file with such a path. *)
Theorem own_source_never_merged (file_path : string) :
  basename file_path = "file_merger.py" ->
  is_text_file init file_path = false
  /\ forall env source_dir root f o,
       PosixPath.join root (fname f) = file_path ->
       process_file init env source_dir root f o = (inr tt, o)
       /\ section_of init env source_dir root f = "".
Proof.
  intros H. pose proof (is_text_file_own_source _ H) as Hf.
  split; [exact Hf|].
  intros env source_dir root f o Hp.
  unfold process_file, section_of. rewrite Hp, Hf. split; reflexivity.
Qed.

Lemma own_source_never_merged_witness :
  basename "/home/u/proj/file_merger.py" = "file_merger.py"
  /\ is_text_file init "/home/u/proj/file_merger.py" = false.
Proof.
  split; [reflexivity|].
  apply (own_source_never_merged "/home/u/proj/file_merger.py"). reflexivity.
Defined.

(** *** Dot files *)

(** C10. A file name made of one leading dot and a token without a dot
    is rejected: [splitext] gives it the empty extension, which is not
    listed.  The same holds for its path in any directory, so the merge
    loop writes nothing for it.  [.gitignore], [.env], [.babelrc] and
    [.dockerignore] are rejected in this way although these very strings
    are members of the allow-list. *)
Theorem dotfiles_never_merged (token : string) :
  count token extsep = 0%nat ->
  snd (splitext (lower (String extsep token))) = ""
  /\ is_text_file init (String extsep token) = false
  /\ (count token sep = 0%nat ->
      forall env source_dir root f o,
        fname f = String extsep token ->
        is_text_file init (PosixPath.join root (fname f)) = false
        /\ process_file init env source_dir root f o = (inr tt, o))
  /\ Forall (fun name => In name (supported_extensions init)
                         /\ is_text_file init name = false)
       [".gitignore"; ".env"; ".babelrc"; ".dockerignore"].
Proof.
  intros Hdot.
  pose proof (splitext_lower_dotfile token Hdot) as Hext.
  assert (Hrej : is_text_file init (String extsep token) = false).
  { unfold is_text_file. rewrite Hext. destruct (_ || _); reflexivity. }
  split; [exact Hext|]. split; [exact Hrej|]. split.
  - intros Hsep env source_dir root f o Hf.
    assert (Hj : is_text_file init (PosixPath.join root (fname f)) = false).
    { rewrite Hf, is_text_file_join; [exact Hrej|].
      cbn [count]. change (Ascii.eqb extsep sep) with false. exact Hsep. }
    split; [exact Hj|]. unfold process_file. now rewrite Hj.
  - repeat (apply Forall_cons;
            [split; [apply mem_In|]; vm_compute; reflexivity|]).
    apply Forall_nil.
Qed.

Lemma dotfiles_never_merged_witness :
  count "gitignore" extsep = 0%nat
  /\ is_text_file init ".gitignore" = false.
Proof.
  split; [reflexivity|].
  exact (proj1 (proj2 (dotfiles_never_merged "gitignore" eq_refl))).
Defined.

(** *** The layout of the output file *)

Lemma digit_is_digit (n : nat) : is_digit (digit n) = true.
Proof.
  unfold is_digit, digit.
  pose proof (Nat.mod_upper_bound n 10 ltac:(lia)) as Hlt.
  rewrite nat_ascii_embedding by lia.
  apply andb_true_iff. split; apply Nat.leb_le; lia.
Qed.

(** The time stamp of the first line: four digits, two, two, then the
    time of day, 19 characters in all. *)
Lemma timestamp_shape (d : DateTime) :
  matches_pattern "9999-99-99 99:99:99" (strftime d "%Y-%m-%d %H:%M:%S") = true.
Proof.
  cbv - [is_digit digit Nat.div year month day hour minute second andb].
  rewrite !digit_is_digit. reflexivity.
Qed.

Lemma delimiter_literal :
  delimiter
  = "================================================================================"
  /\ String.length delimiter = 80%nat.
Proof. split; reflexivity. Qed.

(** C6. A merge that reports success has written, in this order: the
    line [Generated on: ] with the time stamp [YYYY-MM-DD HH:MM:SS], an
    empty line, [Directory Structure:] underlined by 19 [=], the tree
    listing, an empty line, [File Contents:] underlined by 13 [=], an empty
    line, and then what the loop over the files wrote.  When no write
    failed that rest is the sequence of the per-file sections, and the
    section of a readable accepted file is a line of exactly 80 [=], the
    line [File: ] with the relative path, a second line of 80 [=], an empty
    line, the content and two line ends. *)
Theorem merge_files_output_layout
        (self : t) (env : Env) (source_dir output_file msg : string)
        (out : option string) :
  merge_files self env source_dir output_file = ((true, msg), out) ->
  (exists rest,
      out = Some ("Generated on: " ++ strftime (now env) "%Y-%m-%d %H:%M:%S" ++ nl
                  ++ nl
                  ++ "Directory Structure:" ++ nl
                  ++ "===================" ++ nl
                  ++ get_directory_structure env source_dir ++ nl
                  ++ nl
                  ++ "File Contents:" ++ nl
                  ++ "=============" ++ nl
                  ++ nl
                  ++ rest)
      /\ (no_write_fault env -> rest = sections self env source_dir))
  /\ matches_pattern "9999-99-99 99:99:99"
       (strftime (now env) "%Y-%m-%d %H:%M:%S") = true
  /\ String.length "===================" = 19%nat
  /\ String.length "=============" = 13%nat
  /\ String.length delimiter = 80%nat
  /\ (forall root f content,
        is_text_file self (PosixPath.join root (fname f)) = true ->
        outcome f = Readable content ->
        section_of self env source_dir root f
        = delimiter ++ nl
          ++ "File: "
          ++ relpath (cwd env) (PosixPath.join root (fname f)) source_dir ++ nl
          ++ delimiter ++ nl
          ++ nl
          ++ content ++ nl ++ nl).
Proof.
  intros H. repeat split; try reflexivity; try apply timestamp_shape.
  - unfold merge_files in H.
    destruct (open_output env) eqn:Hopen; [discriminate|].
    change {| written := ""; calls := 0 |} with fresh in H.
    destruct (merge_body self env source_dir fresh) as [[e|[]] o] eqn:Hb;
      [discriminate|].
    injection H as _ <-.
    apply merge_body_inr in Hb as [Hb _].
    destruct (merge_block_success_prefix _ _ _ _ _ Hb) as [Hwalk [rest Hrest]].
    exists rest. split.
    + rewrite Hrest. unfold preamble.
      change (times "=" 19) with "===================".
      change (times "=" 13) with "=============".
      repeat rewrite append_assoc. reflexivity.
    + intros Hw. destruct (merge_block_ok self env source_dir Hw Hwalk) as [n Hok].
      rewrite Hok in Hb. injection Hb as Hb. rewrite <- Hb in Hrest.
      change (preamble env source_dir ++ sections self env source_dir
              = preamble env source_dir ++ rest) in Hrest.
      symmetry. exact (append_cancel_l _ _ _ Hrest).
  - intros root f content Hf Hc. unfold section_of, header_block.
    rewrite Hf, Hc. repeat rewrite append_assoc. reflexivity.
Qed.

Lemma merge_files_output_layout_witness :
  fst (merge_files init sample_env "/home/u/proj" "/tmp/out.txt")
  = (true, "Files merged successfully!")
  /\ matches_pattern "9999-99-99 99:99:99"
       (strftime (now sample_env) "%Y-%m-%d %H:%M:%S") = true.
Proof.
  split; [vm_compute; reflexivity|].
  refine (proj1 (proj2 (merge_files_output_layout init sample_env "/home/u/proj" "/tmp/out.txt"
                          "Files merged successfully!"
                          (snd (merge_files init sample_env "/home/u/proj" "/tmp/out.txt")) _))).
  vm_compute. reflexivity.
Defined.

(** *** Files that cannot be read *)

(** C3. A file the filter accepts and [open] refuses has no header
    block in the output: for [secret.txt] in [denied_env] the output holds
    the line [Error reading file /home/u/proj/secret.txt: ...] and no
    [File: secret.txt] label, against the description, which has the
    header block before the error line.  The sibling path does write it:
    when the same file opens and [read] fails ([undecodable_env]), the
    header block stands before the error line.  In both runs the merge goes
    on to [b.txt] and succeeds. *)
Theorem open_failure_writes_no_header :
  is_text_file init (PosixPath.join "/home/u/proj" "secret.txt") = true
  /\ (exists out,
        merge_files init denied_env "/home/u/proj" "/tmp/out.txt"
        = ((true, "Files merged successfully!"), Some out)
        /\ contains out "File: secret.txt" = false
        /\ contains out
             (error_line "/home/u/proj/secret.txt"
                "[Errno 13] Permission denied: '/home/u/proj/secret.txt'"
              ++ header_block "b.txt" ++ "hello" ++ nl ++ nl) = true)
  /\ (exists out,
        merge_files init undecodable_env "/home/u/proj" "/tmp/out.txt"
        = ((true, "Files merged successfully!"), Some out)
        /\ contains out
             (header_block "secret.txt"
              ++ error_line "/home/u/proj/secret.txt"
                   "'utf-8' codec can't decode byte 0xff in position 0: invalid start byte"
              ++ header_block "b.txt" ++ "hello" ++ nl ++ nl) = true).
Proof.
  split; [vm_compute; reflexivity|]. split.
  - eexists. split; [vm_compute; reflexivity|].
    split; vm_compute; reflexivity.
  - eexists. split; vm_compute; reflexivity.
Qed.

(** X15. What the loop does for an accepted file that cannot be read,
    when the writes to the output succeed: if opening the file raises, it
    writes the line [Error reading file <path>: <text>] and an empty line
    and nothing else; if the file opens and reading it raises, it writes
    the header block first and then that line.  In both cases the loop
    goes on with the files that remain. *)
Theorem read_error_writes_note_and_continues
        (self : t) (env : Env) (source_dir root : string)
        (f : File) (others : list File) (o : OutFile) :
  no_write_fault env ->
  is_text_file self (PosixPath.join root (fname f)) = true ->
  let file_path := PosixPath.join root (fname f) in
  let relative_path := relpath (cwd env) file_path source_dir in
  let body := process_file self env source_dir root in
  (forall msg, outcome f = OpenFails msg ->
     exists n,
       for_each (f :: others) body o
       = for_each others body
           {| written := written o
                ++ "Error reading file " ++ file_path ++ ": " ++ msg ++ nl ++ nl;
              calls := n |})
  /\ (forall msg, outcome f = ReadFails msg ->
     exists n,
       for_each (f :: others) body o
       = for_each others body
           {| written := written o
                ++ delimiter ++ nl ++ "File: " ++ relative_path ++ nl
                ++ delimiter ++ nl ++ nl
                ++ "Error reading file " ++ file_path ++ ": " ++ msg ++ nl ++ nl;
              calls := n |}).
Proof.
  intros Hw Hf file_path relative_path body.
  assert (Hstep : forall sec, section_of self env source_dir root f = sec ->
            exists n, for_each (f :: others) body o
                      = for_each others body {| written := written o ++ sec; calls := n |}).
  { intros sec <-. cbn [for_each]. unfold bind, body.
    destruct (process_file_ok self env source_dir Hw root f o) as [n ->].
    now exists n. }
  split.
  - intros msg Ho. apply Hstep. unfold section_of, error_line.
    now rewrite Hf, Ho.
  - intros msg Ho. apply Hstep. unfold section_of, header_block, error_line.
    rewrite Hf, Ho. repeat rewrite append_assoc. reflexivity.
Qed.

Lemma read_error_writes_note_and_continues_witness :
  no_write_fault denied_env
  /\ exists n,
       for_each
         [{| fname := "secret.txt";
             outcome := OpenFails "[Errno 13] Permission denied: '/home/u/proj/secret.txt'" |}]
         (process_file init denied_env "/home/u/proj" "/home/u/proj") fresh
       = (inr tt,
          {| written := "Error reading file /home/u/proj/secret.txt: "
                        ++ "[Errno 13] Permission denied: '/home/u/proj/secret.txt'"
                        ++ nl ++ nl;
             calls := n |}).
Proof.
  split; [intros k; reflexivity|].
  assert (Hf : is_text_file init (PosixPath.join "/home/u/proj" "secret.txt") = true)
    by (vm_compute; reflexivity).
  exact (proj1 (read_error_writes_note_and_continues init denied_env "/home/u/proj"
                  "/home/u/proj"
                  {| fname := "secret.txt";
                     outcome := OpenFails "[Errno 13] Permission denied: '/home/u/proj/secret.txt'" |}
                  [] fresh (fun k => eq_refl) Hf)
           _ eq_refl).
Defined.

(** *** A directory with [a.py], [b.txt] and [c.png] *)

(** C7. The root [/home/u/proj] holds exactly [a.py], [b.txt] and [c.png],
    enumerated in any order, the first two readable.  The merge succeeds;
    after the preamble the output holds, in the order of enumeration, one
    section for [a.py] and one for [b.txt], each a line of 80 [=], the
    line [File: a.py] (or [File: b.txt]), a second line of 80 [=], an empty
    line, the content and two line ends, and nothing for [c.png], which is
    named in the tree listing only. *)
Theorem merge_a_py_b_txt_c_png
        (d : DateTime) (ca cb : string) (oc : ReadOutcome) (files : list File) :
  Permutation files
    [{| fname := "a.py"; outcome := Readable ca |};
     {| fname := "b.txt"; outcome := Readable cb |};
     {| fname := "c.png"; outcome := oc |}] ->
  merge_files init (abc_env d files) "/home/u/proj" "/tmp/out.txt"
  = ((true, "Files merged successfully!"),
     Some (preamble (abc_env d files) "/home/u/proj"
           ++ concat_all
                (map (fun f =>
                        if String.eqb (fname f) "c.png" then ""
                        else delimiter ++ nl
                             ++ "File: " ++ fname f ++ nl
                             ++ delimiter ++ nl
                             ++ nl
                             ++ content_of f ++ nl ++ nl)
                     files)))
  /\ get_directory_structure (abc_env d files) "/home/u/proj"
     = PyStr.join nl ("proj/" :: map (fun f => "  " ++ fname f) files).
Proof.
  intros Hperm. split.
  - rewrite merge_files_ok;
      [|intros k; reflexivity|reflexivity|reflexivity|reflexivity].
    do 3 f_equal. unfold sections, os_walk. cbn [fs abc_env].
    rewrite String.eqb_refl. cbn [walk flat_map map concat_all fold_right].
    rewrite append_nil_r. unfold concat_all. f_equal.
    apply map_ext_in. intros f Hin.
    apply (Permutation_in _ Hperm) in Hin.
    unfold section_of, content_of, header_block. cbn [cwd].
    destruct Hin as [<-|[<-|[<-|[]]]]; cbn [fname outcome].
    + replace (is_text_file init (PosixPath.join "/home/u/proj" "a.py"))
        with true by (vm_compute; reflexivity).
      replace (relpath "/home/u/proj" (PosixPath.join "/home/u/proj" "a.py") "/home/u/proj")
        with "a.py" by (vm_compute; reflexivity).
      cbn [String.eqb Ascii.eqb Bool.eqb]. repeat rewrite append_assoc. reflexivity.
    + replace (is_text_file init (PosixPath.join "/home/u/proj" "b.txt"))
        with true by (vm_compute; reflexivity).
      replace (relpath "/home/u/proj" (PosixPath.join "/home/u/proj" "b.txt") "/home/u/proj")
        with "b.txt" by (vm_compute; reflexivity).
      cbn [String.eqb Ascii.eqb Bool.eqb]. repeat rewrite append_assoc. reflexivity.
    + replace (is_text_file init (PosixPath.join "/home/u/proj" "c.png"))
        with false by (vm_compute; reflexivity).
      reflexivity.
  - unfold get_directory_structure, os_walk. cbn [fs abc_env].
    rewrite String.eqb_refl. cbn [walk flat_map map].
    rewrite app_nil_r. reflexivity.
Qed.

Lemma merge_a_py_b_txt_c_png_witness :
  Permutation
    [{| fname := "c.png"; outcome := Readable "PNG" |};
     {| fname := "a.py"; outcome := Readable "x = 1" |};
     {| fname := "b.txt"; outcome := Readable "hello" |}]
    [{| fname := "a.py"; outcome := Readable "x = 1" |};
     {| fname := "b.txt"; outcome := Readable "hello" |};
     {| fname := "c.png"; outcome := Readable "PNG" |}]
  /\ get_directory_structure
       (abc_env {| year := 2024; month := 1; day := 1;
                   hour := 12; minute := 0; second := 0 |}
          [{| fname := "c.png"; outcome := Readable "PNG" |};
           {| fname := "a.py"; outcome := Readable "x = 1" |};
           {| fname := "b.txt"; outcome := Readable "hello" |}])
       "/home/u/proj"
     = PyStr.join nl ["proj/"; "  c.png"; "  a.py"; "  b.txt"].
Proof.
  assert (P : Permutation
    [{| fname := "c.png"; outcome := Readable "PNG" |};
     {| fname := "a.py"; outcome := Readable "x = 1" |};
     {| fname := "b.txt"; outcome := Readable "hello" |}]
    [{| fname := "a.py"; outcome := Readable "x = 1" |};
     {| fname := "b.txt"; outcome := Readable "hello" |};
     {| fname := "c.png"; outcome := Readable "PNG" |}]).
  { apply perm_trans with
      (l' := [{| fname := "a.py"; outcome := Readable "x = 1" |};
              {| fname := "c.png"; outcome := Readable "PNG" |};
              {| fname := "b.txt"; outcome := Readable "hello" |}]).
    - apply perm_swap.
    - apply perm_skip. apply perm_swap. }
  split; [exact P|].
  apply (merge_a_py_b_txt_c_png
           {| year := 2024; month := 1; day := 1; hour := 12; minute := 0; second := 0 |}
           "x = 1" "hello" (Readable "PNG") _ P).
Defined.

(** *** Running the script twice in the same directory *)

(** C2. The second run does merge the output of the first: the name
    [proj_merged_20240101_120000.txt] does not start with [_merged_], so
    the filter accepts it, and its section, label and whole content, is in
    the content part of the new output.  The file is also named in the
    tree listing. *)
Theorem rerun_merges_prior_output :
  output_file_name first_run_env = "proj_merged_20240101_120000.txt"
  /\ is_text_file init
       (PosixPath.join "/home/u/proj" (output_file_name first_run_env)) = true
  /\ exists out,
       main rerun_env = ((true, "Files merged successfully!"), Some out)
       /\ contains out
            (header_block "proj_merged_20240101_120000.txt" ++ first_output ++ nl ++ nl)
          = true
       /\ contains (get_directory_structure rerun_env "/home/u/proj")
            (nl ++ "  proj_merged_20240101_120000.txt" ++ nl)
          = true.
Proof.
  split; [vm_compute; reflexivity|].
  split; [vm_compute; reflexivity|].
  eexists. split; [vm_compute; reflexivity|].
  split; vm_compute; reflexivity.
Qed.

(** *** The tree listing *)

Lemma times_succ_r (s : string) (n : nat) : times s (n + 1) = times s n ++ s.
Proof.
  induction n as [|n IH]; cbn [times Nat.add].
  - now rewrite append_nil_r.
  - now rewrite IH, append_assoc.
Qed.

(** A visited directory gives its own line, base name and [/], and right
    after it one line per file, two spaces deeper than that line. *)
Lemma structure_of_shape (startpath root : string) (dirs : list string)
      (files : list File) :
  let indent := times "  " (count (replace root startpath "") sep) in
  structure_of startpath (root, dirs, files)
  = (indent ++ basename root ++ "/")
      :: map (fun f => indent ++ "  " ++ fname f) files.
Proof.
  cbn [structure_of]. f_equal. apply map_ext. intros f.
  now rewrite times_succ_r, append_assoc.
Qed.

(** The listing does not consult the filter: every file of every visited
    directory has its line. *)
Lemma listing_unfiltered (env : Env) (startpath root : string)
      (dirs : list string) (files : list File) (f : File) :
  In (root, dirs, files) (os_walk env startpath) ->
  In f files ->
  In (times "  " (count (replace root startpath "") sep) ++ "  " ++ fname f)
     (flat_map (structure_of startpath) (os_walk env startpath)).
Proof.
  intros He Hf. apply in_flat_map. exists (root, dirs, files).
  split; [exact He|]. rewrite structure_of_shape. right.
  apply in_map_iff. now exists f.
Qed.

(** The nested tree listed from [root]: four directory lines and two
    file lines, each indented by its depth. *)
Example get_directory_structure_nested :
  get_directory_structure nested_env "root"
  = PyStr.join nl
      ["root/";
       "  sub1/";
       "    x.txt";
       "  sub2/";
       "    sub3/";
       "      y.txt"].
Proof. vm_compute. reflexivity. Qed.

(** C8. Listing [/app]: the directory [/app/app] is one level below the
    root, but [root.replace(startpath, '')] removes both occurrences of
    [/app] from its path and leaves no separator to count.  Its line is
    written without indentation and its file with one unit, where two
    spaces and four are due. *)
Theorem get_directory_structure_repeated_root :
  os_walk app_env "/app"
  = [("/app", ["app"], [{| fname := "main.py"; outcome := Readable "import app" |}]);
     ("/app/app", [], [{| fname := "x.py"; outcome := Readable "x = 1" |}])]
  /\ replace "/app/app" "/app" "" = ""
  /\ get_directory_structure app_env "/app"
     = PyStr.join nl
         ["app/";
          "  main.py";
          "app/";
          "  x.py"]
  /\ get_directory_structure app_env "/app"
     <> PyStr.join nl
          ["app/";
           "  main.py";
           "  app/";
           "    x.py"].
Proof.
  repeat split; try (vm_compute; reflexivity).
  vm_compute. discriminate.
Qed.

End MergeFacts.

(* ================================================================== *)
(** ** Further properties of the listing *)
(* ================================================================== *)

Module TreeFacts.
Import PyStr PosixPath FileMerger Expected Scenarios PathFacts FilterFacts MergeFacts.

Lemma structure_of_length (startpath : string)
      (entry : string * list string * list File) :
  List.length (structure_of startpath entry) = S (List.length (snd entry)).
Proof.
  destruct entry as [[root dirs] files]. cbn [structure_of snd List.length].
  now rewrite length_map.
Qed.

Lemma listing_length (startpath : string) (d : Dir) :
  forall top,
    List.length (flat_map (structure_of startpath) (walk top d))
    = (count_dirs d + count_files d)%nat.
Proof.
  induction d as [files subdirs IH] using Dir_nested_ind. intros top.
  cbn [walk flat_map count_dirs count_files].
  rewrite length_app, structure_of_length. cbn [snd].
  assert (Hsub : forall top',
             List.length
               (flat_map (structure_of startpath)
                  (flat_map (fun sd => walk (PosixPath.join top' (fst sd)) (snd sd)) subdirs))
             = (list_sum (map (fun sd => count_dirs (snd sd)) subdirs)
                + list_sum (map (fun sd => count_files (snd sd)) subdirs))%nat).
  { intros top'. induction IH as [|sd l Hsd _ IHl]; [reflexivity|].
    cbn [flat_map map]. rewrite flat_map_app, length_app, Hsd, IHl.
    unfold list_sum. cbn [fold_right]. lia. }
  rewrite Hsub. lia.
Qed.

Lemma count_app (a b : string) (c : ascii) :
  count (a ++ b) c = (count a c + count b c)%nat.
Proof.
  induction a as [|x a IH]; cbn [append count]; [reflexivity|].
  rewrite IH. now destruct (Ascii.eqb x c).
Qed.

Lemma prefix_take (p s : string) :
  String.prefix p s = true -> take (String.length p) s = p.
Proof.
  revert s. induction p as [|a p IH]; intros s H; [reflexivity|].
  destruct s as [|b s]; [discriminate|]. cbn [String.prefix] in H.
  destruct (ascii_dec a b) as [<-|]; [|discriminate].
  cbn [String.length take]. now rewrite IH.
Qed.

(** Removing the occurrences of a string without [c] keeps every [c]. *)
Lemma count_replace_go (old : string) (c : ascii) :
  count old c = 0%nat ->
  forall s k,
    count (take k s) c = 0%nat ->
    count (replace_go old "" k s) c = count s c.
Proof.
  intros Hold. induction s as [|a s IH]; intros k Hk.
  - destruct k; cbn [replace_go]; [|reflexivity].
    now destruct (String.eqb old "").
  - destruct k as [|k].
    + cbn [replace_go].
      destruct (String.prefix old (String a s)) eqn:Hp.
      * destruct old as [|a' old']; cbn [String.length].
        -- cbn [append count]. now rewrite (IH 0%nat).
        -- cbn [append]. cbn [String.prefix] in Hp.
           destruct (ascii_dec a' a) as [->|]; [|discriminate].
           cbn [count] in Hold |- *.
           destruct (Ascii.eqb a c); [discriminate|].
           apply IH. now rewrite (prefix_take _ _ Hp).
      * cbn [count]. now rewrite (IH 0%nat).
    + cbn [replace_go take count] in *.
      destruct (Ascii.eqb a c); [discriminate|]. now apply IH.
Qed.

Lemma count_replace (s old : string) (c : ascii) :
  count old c = 0%nat -> count (replace s old "") c = count s c.
Proof.
  intros Hold. unfold replace. now apply count_replace_go.
Qed.

Lemma endswith_char_absent (s : string) (c : ascii) :
  count s c = 0%nat -> endswith_char s c = false.
Proof.
  induction s as [|a s IH]; [reflexivity|]. cbn [count].
  destruct (Ascii.eqb a c) eqn:E; [discriminate|]. intros H.
  destruct s as [|b s]; [exact E|]. now apply IH.
Qed.

Lemma endswith_char_app_r (a n : string) (c : ascii) :
  n <> "" -> endswith_char (a ++ n) c = endswith_char n c.
Proof.
  intros Hn. induction a as [|x a IH]; [reflexivity|].
  cbn [append]. destruct (a ++ n) as [|y r] eqn:E.
  - destruct a; [cbn in E; congruence | discriminate].
  - exact IH.
Qed.

(** Below a top that is not empty and does not end in a separator, a
    sub-directory is reached by appending a separator and its name. *)
Lemma join_child (top name : string) :
  top <> "" -> endswith_char top sep = false -> count name sep = 0%nat ->
  PosixPath.join top name = top ++ String sep name.
Proof.
  intros Ht He Hn. unfold PosixPath.join.
  replace (startswith name (String sep "")) with false.
  - rewrite He. destruct (String.eqb_spec top ""); [congruence | reflexivity].
  - unfold startswith. destruct name as [|x name]; [reflexivity|].
    cbn [count] in Hn. cbn [String.prefix].
    destruct (ascii_dec sep x) as [<-|]; [|reflexivity].
    rewrite Ascii.eqb_refl in Hn. discriminate.
Qed.

Section SeparatorFreeStart.
Variable startpath : string.
Hypothesis Hsp : count startpath sep = 0%nat.

Lemma listing_is_tree_lines (d : Dir) :
  forall top n,
    top <> "" -> endswith_char top sep = false -> count top sep = n ->
    valid_names d = true ->
    flat_map (structure_of startpath) (walk top d)
    = tree_lines n (basename top) d.
Proof.
  induction d as [files subdirs IH] using Dir_nested_ind.
  intros top n Ht He Hc Hv.
  cbn [walk flat_map tree_lines structure_of].
  rewrite count_replace by exact Hsp. rewrite Hc.
  cbn [app]. f_equal. f_equal.
  cbn [valid_names] in Hv.
  induction IH as [|[name sub] l Hsd _ IHl]; [reflexivity|].
  cbn [forallb fst snd] in Hv.
  apply andb_true_iff in Hv as [Hv Hl].
  apply andb_true_iff in Hv as [Hv Hsub].
  apply andb_true_iff in Hv as [Hne Hns].
  apply Nat.eqb_eq in Hns.
  apply negb_true_iff in Hne. apply String.eqb_neq in Hne.
  cbn [flat_map fst snd] in Hsd |- *. rewrite flat_map_app, IHl by exact Hl. f_equal.
  rewrite (Hsd (PosixPath.join top name) (n + 1)%nat).
  - now rewrite basename_join.
  - rewrite join_child by assumption. destruct top; discriminate.
  - rewrite join_child by assumption.
    change (top ++ String sep name) with (top ++ (String sep "" ++ name)).
    rewrite <- append_assoc.
    rewrite endswith_char_app_r by assumption.
    now apply endswith_char_absent.
  - rewrite join_child by assumption. rewrite count_app. cbn [count].
    rewrite Ascii.eqb_refl. lia.
  - exact Hsub.
Qed.

End SeparatorFreeStart.

Lemma prefix_refl (s : string) : String.prefix s s = true.
Proof.
  induction s as [|a s IH]; [reflexivity|]. cbn [String.prefix].
  destruct (ascii_dec a a); [exact IH | congruence].
Qed.

Lemma replace_go_skip_all (old s : string) :
  old <> "" -> replace_go old "" (String.length s) s = "".
Proof.
  intros Hold. induction s as [|a s IH]; cbn [String.length replace_go].
  - destruct (String.eqb_spec old ""); [congruence | reflexivity].
  - exact IH.
Qed.

Lemma replace_self (s : string) : s <> "" -> replace s s "" = "".
Proof.
  intros Hs. unfold replace. destruct s as [|a s]; [congruence|].
  cbn [replace_go]. rewrite prefix_refl. cbn [String.length append].
  now apply replace_go_skip_all.
Qed.

(** X2. Listed from a start path that is not empty and holds no
    separator, a tree whose directory names are not empty and hold no
    separator comes out as [tree_lines] writes it: every directory line
    indented by two spaces per level of nesting, the root at level 0 under
    the start path as its name, every file one level deeper than its
    directory, sub-directories after the files, in the order of the
    walk. *)
Theorem listing_indents_by_depth (env : Env) (startpath : string) (d : Dir) :
  fs env startpath = Some d ->
  startpath <> "" ->
  count startpath sep = 0%nat ->
  valid_names d = true ->
  get_directory_structure env startpath
  = PyStr.join nl (tree_lines 0 startpath d).
Proof.
  intros Hfs Hne Hsep Hv. unfold get_directory_structure, os_walk. rewrite Hfs.
  rewrite (listing_is_tree_lines startpath Hsep d startpath 0%nat);
    try assumption.
  - now rewrite basename_plain.
  - now apply endswith_char_absent.
Qed.

Lemma listing_indents_by_depth_witness :
  get_directory_structure nested_env "root"
  = PyStr.join nl
      ["root/"; "  sub1/"; "    x.txt"; "  sub2/"; "    sub3/"; "      y.txt"].
Proof.
  refine (listing_indents_by_depth nested_env "root" _ eq_refl _ eq_refl eq_refl).
  discriminate.
Defined.

(** X3. Whatever start path is given, if it is not empty and can be
    listed, the listing begins with the base name of the start path
    followed by [/], not indented, and then the files of that directory
    indented by two spaces. *)
Theorem listing_starts_with_root (env : Env) (startpath : string)
        (files : list File) (subdirs : list (string * Dir)) :
  fs env startpath = Some (MkDir files subdirs) ->
  startpath <> "" ->
  exists rest,
    get_directory_structure env startpath
    = PyStr.join nl
        (((basename startpath ++ "/") :: map (fun f => "  " ++ fname f) files)
           ++ rest).
Proof.
  intros Hfs Hne. unfold get_directory_structure, os_walk. rewrite Hfs.
  cbn [walk flat_map structure_of]. rewrite replace_self by assumption.
  eexists. reflexivity.
Qed.

Lemma listing_starts_with_root_witness :
  exists rest,
    get_directory_structure app_env "/app"
    = PyStr.join nl (["app/"; "  main.py"] ++ rest).
Proof.
  refine (listing_starts_with_root app_env "/app" _ _ eq_refl _).
  discriminate.
Defined.

End TreeFacts.

(* ================================================================== *)
(** ** Further properties of the filter *)
(* ================================================================== *)

Module FilterMore.
Import PyStr PosixPath FileMerger Expected Scenarios PathFacts FilterFacts.

(** A path is a name without a separator, or ends in a separator and
    such a name. *)
Lemma path_last_component (p : string) :
  count p sep = 0%nat
  \/ exists a n, p = a ++ String sep n /\ count n sep = 0%nat.
Proof.
  induction p as [|x p IH]; [now left|].
  cbn [count]. destruct (Ascii.eqb x sep) eqn:E.
  - apply Ascii.eqb_eq in E. subst x. right.
    destruct IH as [H0 | [a [n [-> Hn]]]].
    + now exists "", p.
    + now exists (String sep a), n.
  - destruct IH as [H0 | [a [n [-> Hn]]]]; [now left|].
    right. now exists (String x a), n.
Qed.

Lemma splitext_no_dot (n : string) :
  count n extsep = 0%nat -> snd (splitext n) = "".
Proof.
  intros H. unfold splitext.
  replace (rfind n extsep) with (-1)%Z
    by (unfold rfind; now rewrite rfind_from_absent).
  pose proof (rfind_lower_bound n sep).
  destruct (Z.ltb_spec (rfind n sep) (-1)); [lia | reflexivity].
Qed.

(** X4. For a file name without a separator, the filter gives the path
    of the file in any directory the answer it gives the bare name. *)
Theorem filter_depends_on_name_only (self : t) (root name : string) :
  count name sep = 0%nat ->
  is_text_file self (PosixPath.join root name) = is_text_file self name.
Proof. apply is_text_file_join. Qed.

Lemma filter_depends_on_name_only_witness :
  is_text_file init (PosixPath.join "/home/u/proj/src" "App.PY")
  = is_text_file init "App.PY".
Proof.
  exact (filter_depends_on_name_only init "/home/u/proj/src" "App.PY" eq_refl).
Defined.

(** X5. A path whose base name holds no dot ([Makefile], [Dockerfile],
    [LICENSE], in any directory, also one with dots in its name) is
    rejected. *)
Theorem names_without_dot_rejected (file_path : string) :
  count (basename file_path) extsep = 0%nat ->
  is_text_file init file_path = false.
Proof.
  intros Hdot.
  assert (Hext : snd (splitext (lower file_path)) = "").
  { destruct (path_last_component file_path) as [H0 | [a [n [-> Hn]]]].
    - rewrite basename_plain in Hdot by assumption.
      apply splitext_no_dot. now rewrite count_lower_dot.
    - rewrite basename_root_name in Hdot by assumption.
      rewrite lower_app. cbn [lower]. change (lower_char sep) with sep.
      rewrite splitext_root_name by now rewrite count_lower_sep.
      apply splitext_no_dot. now rewrite count_lower_dot. }
  unfold is_text_file. rewrite Hext. destruct (_ || _); reflexivity.
Qed.

Lemma names_without_dot_rejected_witness :
  count (basename "/srv/app.d/Dockerfile") extsep = 0%nat
  /\ is_text_file init "/srv/app.d/Dockerfile" = false.
Proof.
  split; [reflexivity|].
  exact (names_without_dot_rejected "/srv/app.d/Dockerfile" eq_refl).
Defined.

(** X6. The exclusion of the script's own name compares exactly, the
    extension does not: a file whose name is [file_merger.py] in any other
    spelling of upper and lower case is accepted, in any directory. *)
Theorem own_name_in_other_case_accepted (root name : string) :
  lower name = "file_merger.py" ->
  name <> "file_merger.py" ->
  is_text_file init name = true
  /\ is_text_file init (PosixPath.join root name) = true.
Proof.
  intros Hl Hne.
  assert (Hsep : count name sep = 0%nat).
  { rewrite <- count_lower_sep, Hl. reflexivity. }
  assert (Hacc : is_text_file init name = true).
  { unfold is_text_file. rewrite basename_plain by assumption. rewrite Hl.
    replace (mem name (exclude_files init)) with false.
    - replace (startswith name (output_pattern init)) with false.
      + vm_compute. reflexivity.
      + destruct name as [|c r]; [discriminate|].
        cbn [lower] in Hl. injection Hl as Hc _.
        unfold startswith. cbn [output_pattern init String.prefix].
        destruct (ascii_dec "_" c) as [<-|]; [discriminate | reflexivity].
    - symmetry. apply mem_not_In. cbn [exclude_files init In]. intuition congruence. }
  split; [exact Hacc|]. now rewrite is_text_file_join.
Qed.

Lemma own_name_in_other_case_accepted_witness :
  lower "File_Merger.py" = "file_merger.py"
  /\ is_text_file init (PosixPath.join "/home/u/proj" "File_Merger.py") = true.
Proof.
  split; [reflexivity|].
  refine (proj2 (own_name_in_other_case_accepted "/home/u/proj" "File_Merger.py" eq_refl _)).
  discriminate.
Defined.

End FilterMore.

(* ================================================================== *)
(** ** Further properties of the merge *)
(* ================================================================== *)

Module MergeMore.
Import PyStr PosixPath FileMerger Expected Scenarios PathFacts FilterFacts MergeFacts.

Section OnlyFaults.
Variable env : Env.
Variable top : string.

Lemma rof_ret {A} (a : A) : raises_only_faults env top (ret a).
Proof. intros o e o' H. discriminate H. Qed.

Lemma rof_write (s : string) : raises_only_faults env top (write env s).
Proof.
  intros o e o' H. unfold write in H.
  destruct (write_fault env (calls o)) as [msg|] eqn:E; [|discriminate].
  injection H as <- _. left. now exists (calls o).
Qed.

Lemma rof_walk : raises_only_faults env top (os_walk_io env top).
Proof.
  intros o e o' H. unfold os_walk_io in H.
  destruct (walk_fault env top) as [msg|] eqn:E; [|discriminate].
  injection H as <- _. auto.
Qed.

Lemma rof_bind {A B} (m : IO A) (k : A -> IO B) :
  raises_only_faults env top m ->
  (forall a, raises_only_faults env top (k a)) ->
  raises_only_faults env top (bind m k).
Proof.
  intros Hm Hk o e o' H. unfold bind in H.
  destruct (m o) as [[e1|a] o1] eqn:E.
  - injection H as <- _. exact (Hm _ _ _ E).
  - exact (Hk a _ _ _ H).
Qed.

(** What the guarded block raises does not matter: only the handler can
    let an exception out. *)
Lemma rof_try_except {A} (m : IO A) (h : string -> IO A) :
  (forall e, raises_only_faults env top (h e)) ->
  raises_only_faults env top (try_except m h).
Proof.
  intros Hh o e o' H. unfold try_except in H.
  destruct (m o) as [[e1|a] o1] eqn:E; [|discriminate].
  exact (Hh e1 _ _ _ H).
Qed.

Lemma rof_for_each {A} (l : list A) (body : A -> IO unit) :
  (forall x, raises_only_faults env top (body x)) ->
  raises_only_faults env top (for_each l body).
Proof.
  intros Hb. induction l as [|x l IH]; cbn [for_each].
  - apply rof_ret.
  - apply rof_bind; auto.
Qed.

Lemma rof_process_file (self : t) (root : string) (f : File) :
  raises_only_faults env top (process_file self env top root f).
Proof.
  unfold process_file.
  destruct (is_text_file self (PosixPath.join root (fname f))).
  - apply rof_try_except. intros e. apply rof_write.
  - apply rof_ret.
Qed.

Lemma rof_with_open {A} (block : IO A) :
  raises_only_faults env top block ->
  raises_only_faults env top (with_open env block).
Proof.
  intros Hb o e o' H. unfold with_open, close in H.
  destruct (block o) as [[e1|a] o1] eqn:E;
    destruct (close_fault env) as [msg|] eqn:Hc.
  - injection H as <- _. auto.
  - injection H as <- _. pose proof (Hb _ _ _ E) as Hx.
    rewrite Hc in Hx. exact Hx.
  - injection H as <- _. auto.
  - discriminate.
Qed.

Lemma rof_merge_body (self : t) :
  raises_only_faults env top (merge_body self env top).
Proof.
  unfold merge_body, merge_block, get_directory_structure_call.
  apply rof_with_open.
  do 3 (apply rof_bind; [apply rof_write | intros _]).
  apply rof_bind.
  { apply rof_bind; [apply rof_walk | intros _; apply rof_ret]. }
  intros listing.
  do 4 (apply rof_bind; [apply rof_write | intros _]).
  apply rof_bind; [apply rof_walk|]. intros entries.
  apply rof_for_each. intros [[root dirs] files].
  apply rof_for_each. intros f. apply rof_process_file.
Qed.

End OnlyFaults.

(** X7. A source file that cannot be opened or read never makes the
    merge fail.  When [merge_files] returns [False], the message is
    [Error during merge: ] followed by the text of an exception raised by
    opening the output file, by a write to it, by closing it, or by
    [os.walk] of the source directory. *)
Theorem merge_failure_has_a_cause
        (self : t) (env : Env) (source_dir output_file msg : string)
        (out : option string) :
  merge_files self env source_dir output_file = ((false, msg), out) ->
  exists e,
    msg = "Error during merge: " ++ e
    /\ (open_output env = Some e
        \/ (exists k, write_fault env k = Some e)
        \/ close_fault env = Some e
        \/ walk_fault env source_dir = Some e).
Proof.
  unfold merge_files. intros H.
  destruct (open_output env) as [e|] eqn:Hopen.
  - injection H as <- _. exists e. auto.
  - destruct (merge_body self env source_dir {| written := ""; calls := 0 |})
      as [[e|u] o] eqn:Hb; [|discriminate].
    injection H as <- _. exists e. split; [reflexivity|]. right.
    exact (rof_merge_body _ _ _ _ _ _ Hb).
Qed.

Lemma merge_failure_has_a_cause_witness :
  exists e,
    "Error during merge: [Errno 28] No space left on device"
    = "Error during merge: " ++ e
    /\ (open_output full_disk_env = Some e
        \/ (exists k, write_fault full_disk_env k = Some e)
        \/ close_fault full_disk_env = Some e
        \/ walk_fault full_disk_env "/home/u/proj" = Some e).
Proof.
  refine (merge_failure_has_a_cause init full_disk_env "/home/u/proj"
            "/tmp/out.txt" _ None _).
  vm_compute. reflexivity.
Defined.

(** The two failures that no call of [write] shows: a file that cannot
    be closed after every write returned, and a source path that [os.walk]
    refuses. *)
Example merge_files_close_fails :
  fst (merge_files init close_env "/home/u/proj" "/dev/full")
  = (false, "Error during merge: [Errno 28] No space left on device").
Proof. vm_compute. reflexivity. Qed.

Example merge_files_walk_raises :
  fst (merge_files init nul_env ("a" ++ String zero "b") "/tmp/out.txt")
  = (false, "Error during merge: embedded null byte").
Proof. vm_compute. reflexivity. Qed.

(** X8. A source directory that cannot be listed because of an
    [OSError] is no error: when [os.walk] does not raise and the output
    file opens, takes every write and closes, the merge succeeds, and the
    output holds the headers with an empty tree listing and no file
    section. *)
Theorem merge_unlistable_source
        (self : t) (env : Env) (source_dir output_file : string) :
  fs env source_dir = None ->
  walk_fault env source_dir = None ->
  open_output env = None ->
  no_write_fault env ->
  close_fault env = None ->
  merge_files self env source_dir output_file
  = ((true, "Files merged successfully!"),
     Some ("Generated on: " ++ strftime (now env) "%Y-%m-%d %H:%M:%S" ++ nl
           ++ nl
           ++ "Directory Structure:" ++ nl
           ++ "===================" ++ nl
           ++ nl
           ++ nl
           ++ "File Contents:" ++ nl
           ++ "=============" ++ nl
           ++ nl)).
Proof.
  intros Hfs Hwalk Hopen Hw Hclose. rewrite merge_files_ok by assumption.
  unfold preamble, sections, get_directory_structure, os_walk. rewrite Hfs.
  cbn [flat_map map concat_all fold_right PyStr.join String.concat].
  cbn [append]. repeat rewrite append_assoc. rewrite append_nil_r. reflexivity.
Qed.

Lemma merge_unlistable_source_witness :
  fst (merge_files init missing_env "/home/u/gone" "/tmp/out.txt")
  = (true, "Files merged successfully!").
Proof.
  rewrite (merge_unlistable_source init missing_env "/home/u/gone" "/tmp/out.txt").
  - reflexivity.
  - reflexivity.
  - reflexivity.
  - reflexivity.
  - intros k. reflexivity.
  - reflexivity.
Defined.

(** X9. The loop over the files of a directory does for the whole
    directory exactly what it does for the files the filter accepts, in
    their order: a rejected file causes no write, no call and no
    exception, whether writes fail or not. *)
Theorem rejected_files_leave_no_trace
        (self : t) (env : Env) (source_dir root : string) (files : list File)
        (o : OutFile) :
  for_each files (process_file self env source_dir root) o
  = for_each (accepted self root files) (process_file self env source_dir root) o.
Proof.
  revert o. unfold accepted.
  induction files as [|f files IH]; intros o; [reflexivity|].
  cbn [filter for_each].
  destruct (is_text_file self (PosixPath.join root (fname f))) eqn:E.
  - cbn [for_each]. unfold bind.
    destruct (process_file self env source_dir root f o) as [[e|[]] o1];
      [reflexivity | apply IH].
  - unfold bind, process_file. rewrite E. unfold ret. apply IH.
Qed.

End MergeMore.

(* ================================================================== *)
(** ** The name of the output file and the filter *)
(* ================================================================== *)

Module OutputName.
Import PyStr PosixPath FileMerger Expected Scenarios PathFacts FilterFacts.
Import MergeFacts TreeFacts FilterMore.

Lemma length_append (a b : string) :
  String.length (a ++ b) = (String.length a + String.length b)%nat.
Proof. induction a as [|x a IH]; cbn [append String.length]; [reflexivity | now rewrite IH]. Qed.

Lemma length_times_dot (k : nat) : String.length (times "." k) = k.
Proof. induction k as [|k IH]; cbn [times append String.length]; [reflexivity | now rewrite IH]. Qed.

Lemma count_times_dot (k : nat) (c : ascii) :
  c <> extsep -> count (times "." k) c = 0%nat.
Proof.
  intros Hc. induction k as [|k IH]; cbn [times append count]; [reflexivity|].
  destruct (Ascii.eqb_spec "."%char c) as [E|_]; [now subst | exact IH].
Qed.

(** A string is a run of dots followed by another character, or dots
    only. *)
Lemma leading_dots (x : string) :
  (exists k c rest, x = times "." k ++ String c rest /\ c <> extsep)
  \/ x = times "." (String.length x).
Proof.
  induction x as [|a x IH]; [now right|].
  destruct (ascii_dec a extsep) as [->|Ha].
  - destruct IH as [[k [c [rest [-> Hc]]]] | IH].
    + left. now exists (S k), c, rest.
    + right. cbn [String.length times append]. now rewrite <- IH.
  - left. now exists 0%nat, a, x.
Qed.

Lemma slice_one (pre : string) (x : ascii) (more : string) :
  slice (pre ++ String x more) (Z.of_nat (String.length pre))
        (Z.of_nat (String.length pre) + 1)
  = String x "".
Proof.
  unfold slice.
  replace (Z.to_nat (Z.of_nat (String.length pre) + 1 - Z.of_nat (String.length pre)))
    with 1%nat by lia.
  rewrite Nat2Z.id. rewrite <- (Nat.add_0_r (String.length pre)).
  rewrite drop_app. reflexivity.
Qed.

(** The loop of [splitext] over leading dots stops at the first other
    character and splits at the last dot. *)
Lemma splitext_scan_stops (c : ascii) (rest : string) (dotIndex : Z) :
  c <> extsep ->
  forall k pre cnt,
    (k < cnt)%nat ->
    splitext_scan cnt (pre ++ times "." k ++ String c rest)
                  (Z.of_nat (String.length pre)) dotIndex
    = (slice_to (pre ++ times "." k ++ String c rest) dotIndex,
       slice_from (pre ++ times "." k ++ String c rest) dotIndex).
Proof.
  intros Hc. induction k as [|k IH]; intros pre cnt Hk;
    (destruct cnt as [|cnt]; [lia|]); cbn [splitext_scan times append].
  - rewrite slice_one.
    destruct (String.eqb_spec (String c "") (String extsep "")) as [E|_];
      [injection E as E; congruence | reflexivity].
  - rewrite slice_one. rewrite String.eqb_refl. cbn [negb].
    specialize (IH (pre ++ ".") cnt ltac:(lia)).
    rewrite length_append in IH. cbn [String.length] in IH.
    rewrite append_assoc in IH. cbn [append] in IH.
    replace (Z.of_nat (String.length pre) + 1)%Z
      with (Z.of_nat (String.length pre + 1)) by lia.
    exact IH.
Qed.

(** A name without a separator that ends in [.txt] after a stem with a
    character other than a dot has the extension [.txt]. *)
Lemma splitext_txt (stem : string) :
  count stem sep = 0%nat ->
  stem <> times "." (String.length stem) ->
  snd (splitext (stem ++ ".txt")) = ".txt".
Proof.
  intros Hsep Hdots. unfold splitext.
  assert (Hs : rfind (stem ++ ".txt") sep = (-1)%Z).
  { unfold rfind. rewrite rfind_from_absent; [reflexivity|].
    rewrite count_app, Hsep. reflexivity. }
  assert (Hd : rfind (stem ++ ".txt") extsep = Z.of_nat (String.length stem)).
  { unfold rfind. rewrite rfind_from_app. reflexivity. }
  rewrite Hs, Hd.
  destruct (Z.ltb_spec (-1) (Z.of_nat (String.length stem))) as [_|]; [|lia].
  destruct (leading_dots stem) as [[k [c [rest [E Hc]]]] | E]; [|congruence].
  replace (Z.to_nat (Z.of_nat (String.length stem) - (-1 + 1)))
    with (String.length stem) by lia.
  change (-1 + 1)%Z with (Z.of_nat (String.length "")).
  assert (P : stem ++ ".txt" = "" ++ times "." k ++ String c (rest ++ ".txt")).
  { rewrite E at 1. rewrite append_assoc. reflexivity. }
  rewrite P.
  rewrite (splitext_scan_stops c (rest ++ ".txt") _ Hc k "" (String.length stem)).
  - rewrite <- P. cbn [snd]. unfold slice_from. rewrite Nat2Z.id.
    rewrite <- (Nat.add_0_r (String.length stem)). now rewrite drop_app.
  - rewrite E, length_append, length_times_dot. cbn [String.length]. lia.
Qed.

Lemma digit_chars (n : nat) :
  Ascii.eqb (digit n) sep = false
  /\ Ascii.eqb (digit n) extsep = false
  /\ Ascii.eqb (digit n) "_" = false
  /\ lower_char (digit n) = digit n.
Proof.
  unfold digit. pose proof (Nat.mod_upper_bound n 10 ltac:(lia)) as Hlt.
  destruct (n mod 10) as [|[|[|[|[|[|[|[|[|[|r]]]]]]]]]];
    try (repeat split; reflexivity).
  lia.
Qed.

Lemma file_stamp_shape (d : DateTime) :
  strftime d "%Y%m%d_%H%M%S"
  = zero_pad4 (year d) ++ zero_pad2 (month d) ++ zero_pad2 (day d)
    ++ "_" ++ zero_pad2 (hour d) ++ zero_pad2 (minute d) ++ zero_pad2 (second d).
Proof. reflexivity. Qed.

Lemma file_stamp_chars (d : DateTime) :
  count (strftime d "%Y%m%d_%H%M%S") sep = 0%nat
  /\ lower (strftime d "%Y%m%d_%H%M%S") = strftime d "%Y%m%d_%H%M%S".
Proof.
  rewrite file_stamp_shape. unfold zero_pad4, zero_pad2. cbn [append count lower].
  split.
  - repeat rewrite (proj1 (digit_chars _)). reflexivity.
  - repeat rewrite (proj2 (proj2 (proj2 (digit_chars _)))). reflexivity.
Qed.

Lemma count_basename_sep (p : string) : count (basename p) sep = 0%nat.
Proof.
  destruct (path_last_component p) as [H0 | [a [n [-> Hn]]]].
  - now rewrite basename_plain.
  - now rewrite basename_root_name.
Qed.

(** The name [main] gives the output file, seen by the filter. *)
Lemma output_file_name_facts (env : Env) :
  count (output_file_name env) sep = 0%nat
  /\ snd (splitext (lower (output_file_name env))) = ".txt".
Proof.
  unfold output_file_name.
  destruct (file_stamp_chars (now env)) as [Hts Hlow].
  set (ts := strftime (now env) "%Y%m%d_%H%M%S") in *.
  set (dn := basename (cwd env)).
  assert (Hdn : count dn sep = 0%nat) by apply count_basename_sep.
  split.
  - rewrite !count_app, Hdn, Hts. reflexivity.
  - rewrite !lower_app, Hlow.
    change (lower "_merged_") with "_merged_". change (lower ".txt") with ".txt".
    replace (lower dn ++ "_merged_" ++ ts ++ ".txt")
      with ((lower dn ++ "_merged_" ++ ts) ++ ".txt")
      by (now rewrite !append_assoc).
    apply splitext_txt.
    + rewrite !count_app, count_lower_sep, Hdn, Hts. reflexivity.
    + intros E.
      assert (Hu : count (lower dn ++ "_merged_" ++ ts) "_" = 0%nat).
      { rewrite E. apply count_times_dot. discriminate. }
      rewrite count_app in Hu. cbn [append count] in Hu.
      change (Ascii.eqb "_" "_") with true in Hu. cbv iota in Hu. lia.
Qed.

(** X11. The filter accepts the output file [main] creates, in whatever
    directory, unless that name itself begins with [_merged_]: the name
    ends in [.txt], which is listed, and the test of the base name against
    the pattern is a test of its beginning.  So for a working directory
    whose base name begins with a character other than [_] the output file
    is accepted. *)
Theorem output_name_accepted_unless_prefixed (env : Env) (root : string) :
  is_text_file init (PosixPath.join root (output_file_name env))
  = negb (startswith (output_file_name env) "_merged_")
  /\ (forall c r,
        basename (cwd env) = String c r -> c <> "_"%char ->
        is_text_file init (PosixPath.join root (output_file_name env)) = true).
Proof.
  destruct (output_file_name_facts env) as [Hsep Hext].
  assert (H : is_text_file init (PosixPath.join root (output_file_name env))
              = negb (startswith (output_file_name env) "_merged_")).
  { rewrite is_text_file_join by assumption.
    unfold is_text_file. rewrite basename_plain by assumption. rewrite Hext.
    replace (mem (output_file_name env) (exclude_files init)) with false.
    - cbn [orb output_pattern init].
      destruct (startswith (output_file_name env) "_merged_"); [reflexivity|].
      vm_compute. reflexivity.
    - symmetry. apply mem_not_In. cbn [exclude_files init In].
      intros [E|[]]. rewrite <- E in Hext. vm_compute in Hext. discriminate Hext. }
  split; [exact H|].
  intros c r Hdn Hc. rewrite H. unfold output_file_name. rewrite Hdn.
  unfold startswith. cbn [append String.prefix].
  destruct (ascii_dec "_" c) as [<-|]; [congruence | reflexivity].
Qed.

Lemma output_name_accepted_unless_prefixed_witness :
  basename (cwd first_run_env) = "proj"
  /\ is_text_file init
       (PosixPath.join "/home/u/proj" (output_file_name first_run_env)) = true.
Proof.
  split; [reflexivity|].
  refine (proj2 (output_name_accepted_unless_prefixed first_run_env "/home/u/proj")
            "p"%char "roj" eq_refl _).
  discriminate.
Defined.

End OutputName.

(* ================================================================== *)
(** ** The relative path written in a file label *)
(* ================================================================== *)

Module RelPath.
Import PyStr PosixPath FileMerger Expected Scenarios PathFacts FilterFacts.
Import MergeFacts TreeFacts FilterMore OutputName.

(** *** Splitting at separators *)

Lemma rev_string_twice (s a b : string) :
  rev_string a (rev_string b s) = rev_string (s ++ a) b.
Proof.
  revert a b. induction s as [|x s IH]; intros a b; [reflexivity|].
  cbn [rev_string append]. now rewrite IH.
Qed.

Lemma count_rev_string (s acc : string) (c : ascii) :
  count (rev_string acc s) c = (count s c + count acc c)%nat.
Proof.
  revert acc. induction s as [|x s IH]; intros acc; [reflexivity|].
  cbn [rev_string count]. rewrite IH. cbn [count].
  destruct (Ascii.eqb x c); lia.
Qed.

Lemma split_go_nosep (c : ascii) (n : string) :
  count n c = 0%nat ->
  forall cur s, split_go c cur (n ++ s) = split_go c (rev_string cur n) s.
Proof.
  induction n as [|x n IH]; intros H cur s; [reflexivity|].
  cbn [count] in H. cbn [append split_go rev_string].
  destruct (Ascii.eqb x c); [discriminate|]. now apply IH.
Qed.

Lemma split_go_app_sep (c : ascii) (a b : string) :
  forall cur,
    split_go c cur (a ++ String c b) = (split_go c cur a ++ split_go c "" b)%list.
Proof.
  induction a as [|x a IH]; intros cur; cbn [append split_go].
  - now rewrite Ascii.eqb_refl.
  - destruct (Ascii.eqb x c); [cbn [app]; f_equal|]; apply IH.
Qed.

Lemma split_app_sep (a b : string) :
  split (a ++ String sep b) sep = (split a sep ++ split b sep)%list.
Proof. apply split_go_app_sep. Qed.

Lemma split_nosep (n : string) : count n sep = 0%nat -> split n sep = [n].
Proof.
  intros H. unfold split. rewrite <- (append_nil_r n) at 1.
  rewrite split_go_nosep by assumption. cbn [split_go].
  rewrite rev_string_twice. cbn [rev_string]. now rewrite append_nil_r.
Qed.

Lemma split_go_pieces_nosep (c : ascii) (s : string) :
  forall cur, count cur c = 0%nat ->
    Forall (fun x => count x c = 0%nat) (split_go c cur s).
Proof.
  induction s as [|x s IH]; intros cur Hcur; cbn [split_go].
  - constructor; [|constructor]. now rewrite count_rev_string, Hcur.
  - destruct (Ascii.eqb x c) eqn:E.
    + constructor; [now rewrite count_rev_string, Hcur | now apply IH].
    + apply IH. cbn [count]. now rewrite E.
Qed.

Lemma split_pieces_nosep (s : string) :
  Forall (fun x => count x sep = 0%nat) (split s sep).
Proof. now apply split_go_pieces_nosep. Qed.

Lemma concat_sep (n : string) (names : list string) :
  PyStr.join "/" (n :: names) = n ++ tail_path names.
Proof.
  unfold PyStr.join, tail_path. revert n.
  induction names as [|m names IH]; intros n.
  - cbn. now rewrite append_nil_r.
  - change (String.concat "/" (n :: m :: names))
      with (n ++ "/" ++ String.concat "/" (m :: names)).
    rewrite IH. reflexivity.
Qed.

Lemma valid_name_facts (n : string) :
  valid_name n = true ->
  n <> "" /\ count n sep = 0%nat /\ n <> "." /\ n <> "..".
Proof.
  unfold valid_name. intros H.
  apply andb_true_iff in H as [H H4]. apply andb_true_iff in H as [H H3].
  apply andb_true_iff in H as [H1 H2].
  apply negb_true_iff in H1, H3, H4.
  apply String.eqb_neq in H1, H3, H4. apply Nat.eqb_eq in H2. auto.
Qed.

Lemma split_join_names (names : list string) :
  names <> [] ->
  Forall (fun n => valid_name n = true) names ->
  split (PyStr.join "/" names) sep = names.
Proof.
  induction names as [|n names IH]; intros Hne Hv; [congruence|].
  inversion Hv as [|? ? Hn Hrest]; subst.
  destruct (valid_name_facts n Hn) as [_ [Hsep _]].
  destruct names as [|m names].
  - cbn. now apply split_nosep.
  - change (PyStr.join "/" (n :: m :: names))
      with (n ++ String sep (PyStr.join "/" (m :: names))).
    rewrite split_app_sep, split_nosep by assumption.
    rewrite IH; [reflexivity | discriminate | assumption].
Qed.

(** *** The component loop of [normpath] *)

Lemma normpath_comps_app (i : nat) (a b : list string) :
  forall acc,
    normpath_comps i (a ++ b)%list acc
    = normpath_comps i b (rev (normpath_comps i a acc)).
Proof.
  induction a as [|comp a IH]; intros acc.
  - cbn [app normpath_comps]. now rewrite rev_involutive.
  - cbn [app normpath_comps].
    destruct (String.eqb comp "" || String.eqb comp "."); [apply IH|].
    destruct (negb (String.eqb comp "..") || _ || _); [apply IH|].
    destruct acc; apply IH.
Qed.

Lemma normpath_comps_names (i : nat) (names : list string) :
  Forall (fun n => valid_name n = true) names ->
  forall acc, normpath_comps i names acc = (rev acc ++ names)%list.
Proof.
  induction 1 as [|n names Hn _ IH]; intros acc; cbn [normpath_comps].
  - now rewrite app_nil_r.
  - destruct (valid_name_facts n Hn) as [H1 [_ [H3 H4]]].
    apply String.eqb_neq in H1, H3, H4. rewrite H1, H3, H4. cbn [orb negb].
    rewrite IH. cbn [rev]. now rewrite <- app_assoc.
Qed.

Lemma normpath_comps_slashes (i : nat) (comps : list string) :
  forall acc, normpath_comps (S i) comps acc = normpath_comps 1 comps acc.
Proof.
  induction comps as [|comp comps IH]; intros acc; [reflexivity|].
  cbn [normpath_comps Nat.eqb].
  destruct (String.eqb comp "" || String.eqb comp "."); [apply IH|].
  destruct (negb (String.eqb comp "..") || _ || _); [apply IH|].
  destruct acc; apply IH.
Qed.

Lemma normpath_comps_kept (i : nat) (comps : list string) :
  Forall (fun x => count x sep = 0%nat) comps ->
  forall acc, Forall kept acc -> Forall kept (normpath_comps i comps acc).
Proof.
  induction 1 as [|comp comps Hc _ IH]; intros acc Hacc; cbn [normpath_comps].
  - now apply Forall_rev.
  - destruct (String.eqb comp "") eqn:E1; [now apply IH|].
    apply String.eqb_neq in E1.
    destruct (String.eqb comp "."); cbn [orb]; [now apply IH|].
    destruct (negb (String.eqb comp "..") || _ || _).
    + apply IH. constructor; [split|]; assumption.
    + destruct acc as [|x acc]; apply IH; [assumption|].
      now inversion Hacc.
Qed.

Lemma filter_kept (l : list string) :
  Forall kept l -> filter (fun x => negb (String.eqb x "")) l = l.
Proof.
  induction 1 as [|x l [Hx _] _ IH]; [reflexivity|].
  cbn [filter]. apply String.eqb_neq in Hx. rewrite Hx. cbn [negb]. now rewrite IH.
Qed.

Lemma kept_valid_join (comps : list string) :
  Forall kept comps ->
  filter (fun x => negb (String.eqb x "")) (split (PyStr.join "/" comps) sep) = comps.
Proof.
  intros H. destruct comps as [|n comps]; [reflexivity|].
  assert (Hs : split (PyStr.join "/" (n :: comps)) sep = n :: comps).
  { clear - H. revert n H. induction comps as [|m comps IH]; intros n H.
    - inversion H as [|? ? [_ Hn] _]; subst. cbn. now apply split_nosep.
    - inversion H as [|? ? [_ Hn] Hrest]; subst.
      change (PyStr.join "/" (n :: m :: comps))
        with (n ++ String sep (PyStr.join "/" (m :: comps))).
      rewrite split_app_sep, split_nosep by assumption.
      now rewrite IH. }
  rewrite Hs. now apply filter_kept.
Qed.

(** The components of the normal form of an absolute path are what the
    loop keeps of its pieces. *)
Lemma normpath_abs_components (path : string) :
  isabs path = true ->
  filter (fun x => negb (String.eqb x "")) (split (normpath path) sep)
  = normpath_comps 1 (split path sep) [].
Proof.
  intros Habs. unfold isabs, startswith in Habs.
  destruct path as [|c path]; [discriminate|].
  cbn [String.prefix] in Habs.
  destruct (ascii_dec sep c) as [<-|]; [|discriminate]. clear Habs.
  unfold normpath.
  change (String.eqb (String sep path) "") with false. cbv iota.
  assert (Hsw : startswith (String sep path) "/" = true)
    by (apply startswith_app; now exists path).
  rewrite Hsw.
  set (i := if startswith (String sep path) "//" && negb (startswith (String sep path) "///")
            then 2%nat else 1%nat).
  assert (Hi : exists j, i = S j)
    by (subst i; destruct (_ && _); eauto).
  destruct Hi as [j Hj].
  assert (Hk : Forall kept (normpath_comps i (split (String sep path) sep) [])).
  { apply normpath_comps_kept; [apply split_pieces_nosep | constructor]. }
  rewrite Hj in *. rewrite normpath_comps_slashes in *.
  set (comps := normpath_comps 1 (split (String sep path) sep) []) in *.
  cbn [times append].
  change (String.eqb (String "/" (times "/" j ++ PyStr.join "/" comps)) "") with false.
  cbv iota.
  change (String "/" (times "/" j ++ PyStr.join "/" comps))
    with ("" ++ String sep (times "/" j ++ PyStr.join "/" comps)).
  rewrite split_app_sep. cbn [split split_go rev_string app filter String.eqb negb].
  destruct j as [|j].
  - cbn [times append]. now apply kept_valid_join.
  - assert (Hj2 : j = 0%nat).
    { subst i. destruct (_ && _); congruence. }
    subst j. cbn [times append].
    change (String "/" (PyStr.join "/" comps))
      with ("" ++ String sep (PyStr.join "/" comps)).
    rewrite split_app_sep. cbn [split split_go rev_string app filter String.eqb negb].
    now apply kept_valid_join.
Qed.

(** *** Paths below a directory *)

Lemma valid_name_tail (n : string) :
  valid_name n = true -> n <> "" /\ endswith_char n sep = false.
Proof.
  intros H. destruct (valid_name_facts n H) as [H1 [H2 _]].
  split; [assumption | now apply endswith_char_absent].
Qed.

Lemma fold_left_join_valid (names : list string) :
  Forall (fun n => valid_name n = true) names ->
  forall top, top <> "" -> endswith_char top sep = false ->
    fold_left PosixPath.join names top = top ++ tail_path names.
Proof.
  unfold tail_path.
  induction 1 as [|n names Hn _ IH]; intros top Ht He; cbn [fold_left map concat_all fold_right].
  - now rewrite append_nil_r.
  - destruct (valid_name_facts n Hn) as [H1 [H2 _]].
    rewrite join_child by assumption. rewrite IH.
    + rewrite append_assoc. reflexivity.
    + destruct top; discriminate.
    + change (top ++ String sep n) with (top ++ (String sep "" ++ n)).
      rewrite <- append_assoc, endswith_char_app_r by assumption.
      now apply endswith_char_absent.
Qed.

(** The path built by joining the names below [top], one by one. *)
Lemma path_below_shape (top n : string) (names : list string) :
  Forall (fun x => valid_name x = true) (n :: names) ->
  path_below top (n :: names)
  = if String.eqb top "" then PyStr.join "/" (n :: names)
    else if endswith_char top sep then top ++ PyStr.join "/" (n :: names)
    else top ++ String sep (PyStr.join "/" (n :: names)).
Proof.
  intros Hv. inversion Hv as [|? ? Hn Hrest]; subst.
  destruct (valid_name_facts n Hn) as [H1 [H2 _]].
  destruct (valid_name_tail n Hn) as [_ Hend].
  unfold path_below. cbn [fold_left]. rewrite concat_sep.
  assert (Hs : startswith n (String sep "") = false).
  { unfold startswith. destruct n as [|x n]; [reflexivity|].
    cbn [count] in H2. cbn [String.prefix].
    destruct (ascii_dec sep x) as [<-|]; [|reflexivity].
    rewrite Ascii.eqb_refl in H2. discriminate. }
  unfold PosixPath.join at 2. rewrite Hs.
  destruct (String.eqb_spec top "") as [->|Ht]; cbn [orb].
  - cbn [append]. now apply fold_left_join_valid.
  - destruct (endswith_char top sep) eqn:E.
    + rewrite fold_left_join_valid; try assumption.
      * now rewrite append_assoc.
      * destruct top; [congruence | discriminate].
      * now rewrite endswith_char_app_r.
    + rewrite fold_left_join_valid; try assumption.
      * now rewrite append_assoc.
      * destruct top; discriminate.
      * change (top ++ String sep n) with (top ++ (String sep "" ++ n)).
        now rewrite <- append_assoc, endswith_char_app_r.
Qed.

Lemma isabs_app (a b : string) : isabs a = true -> isabs (a ++ b) = true.
Proof.
  unfold isabs. intros H. apply startswith_app in H as [r ->].
  apply startswith_app. exists (r ++ b). now rewrite append_assoc.
Qed.

Lemma isabs_first (a b : string) : a <> "" -> isabs (a ++ b) = isabs a.
Proof.
  intros Ha. destruct a as [|x a]; [congruence|].
  unfold isabs, startswith. cbn [append String.prefix].
  destruct (ascii_dec sep x); [|reflexivity].
  now destruct (a ++ b), a.
Qed.

Lemma isabs_names (n : string) (names : list string) :
  valid_name n = true -> isabs (PyStr.join "/" (n :: names)) = false.
Proof.
  intros Hn. destruct (valid_name_facts n Hn) as [H1 [H2 _]].
  rewrite concat_sep, isabs_first by assumption.
  unfold isabs, startswith. destruct n as [|x n]; [congruence|].
  cbn [count] in H2. cbn [String.prefix].
  destruct (ascii_dec sep x) as [<-|]; [|reflexivity].
  rewrite Ascii.eqb_refl in H2. discriminate.
Qed.

Lemma commonprefix_len_app (l r : list string) :
  commonprefix_len l (l ++ r)%list = List.length l.
Proof.
  induction l as [|x l IH]; [now destruct r|].
  cbn [app commonprefix_len List.length]. now rewrite String.eqb_refl, IH.
Qed.

(** The components of an absolute path with names appended are the
    components of that path, then the names. *)
Lemma components_below (a : string) (names : list string) :
  names <> [] ->
  Forall (fun x => valid_name x = true) names ->
  normpath_comps 1 (split (a ++ String sep (PyStr.join "/" names)) sep) []
  = (normpath_comps 1 (split a sep) [] ++ names)%list
  /\ (endswith_char a sep = true ->
      normpath_comps 1 (split (a ++ PyStr.join "/" names) sep) []
      = (normpath_comps 1 (split a sep) [] ++ names)%list).
Proof.
  intros Hne Hv.
  assert (H1 : forall b,
             normpath_comps 1 (split (b ++ String sep (PyStr.join "/" names)) sep) []
             = (normpath_comps 1 (split b sep) [] ++ names)%list).
  { intros b. rewrite split_app_sep, split_join_names by assumption.
    rewrite normpath_comps_app, normpath_comps_names by assumption.
    now rewrite rev_involutive. }
  split; [apply H1|].
  intros He. destruct (endswith_char_app _ _ He) as [a0 ->].
  rewrite append_assoc. cbn [append]. rewrite H1. f_equal.
  rewrite split_app_sep, normpath_comps_app.
  cbn [split split_go rev_string normpath_comps String.eqb orb].
  now rewrite rev_involutive.
Qed.

(** *** [relpath] of a path below its start *)

Lemma abspath_input (cwd x : string) :
  isabs cwd = true ->
  abspath cwd x
  = normpath (if isabs x then x
              else (if endswith_char cwd sep then cwd else cwd ++ "/") ++ x).
Proof.
  intros Hc. unfold abspath. destruct (isabs x) eqn:E; [reflexivity|].
  unfold PosixPath.join. unfold isabs in E. rewrite E.
  assert (Hne : String.eqb cwd "" = false)
    by (apply String.eqb_neq; intros ->; discriminate).
  rewrite Hne. cbn [orb].
  destruct (endswith_char cwd sep); [reflexivity|].
  now rewrite append_assoc.
Qed.

Lemma relpath_core (cwd path start a ap : string) (names : list string) :
  abspath cwd start = normpath a ->
  abspath cwd path = normpath ap ->
  isabs a = true -> isabs ap = true ->
  normpath_comps 1 (split ap sep) []
  = (normpath_comps 1 (split a sep) [] ++ names)%list ->
  names <> [] ->
  Forall (fun x => valid_name x = true) names ->
  relpath cwd path start = PyStr.join "/" names.
Proof.
  intros Hs Hp Ha Hap Hc Hne Hv. unfold relpath. rewrite Hs, Hp.
  rewrite !normpath_abs_components by assumption. rewrite Hc.
  rewrite commonprefix_len_app, Nat.sub_diag, skipn_app, skipn_all, Nat.sub_diag.
  cbn [List.repeat app skipn].
  destruct names as [|n names]; [congruence|].
  inversion Hv as [|? ? Hn Hrest]; subst.
  destruct (valid_name_tail n Hn) as [H1 H2].
  unfold join_list. rewrite fold_left_join_valid by assumption.
  now rewrite concat_sep.
Qed.

Lemma relpath_of_path_below (cwd start : string) (names : list string) :
  isabs cwd = true ->
  names <> [] ->
  Forall (fun x => valid_name x = true) names ->
  relpath cwd (path_below start names) start = PyStr.join "/" names.
Proof.
  intros Hc Hne Hv. destruct names as [|n names]; [congruence|].
  inversion Hv as [|? ? Hn Hrest]; subst.
  set (r := PyStr.join "/" (n :: names)).
  set (c := if endswith_char cwd sep then cwd else cwd ++ "/").
  assert (Hcabs : isabs c = true)
    by (subst c; destruct (endswith_char cwd sep); [|apply isabs_app]; assumption).
  assert (Hcend : endswith_char c sep = true).
  { subst c. destruct (endswith_char cwd sep) eqn:E; [exact E|].
    rewrite endswith_char_app_r by discriminate. reflexivity. }
  assert (Hr : isabs r = false) by (subst r; now apply isabs_names).
  destruct (components_below c (n :: names) Hne Hv) as [_ Hc2].
  rewrite path_below_shape by assumption. fold r.
  destruct (String.eqb_spec start "") as [->|Hstart].
  - (* the start is the working directory itself *)
    apply (relpath_core cwd r "" c (c ++ r)); try assumption.
    + rewrite abspath_input by assumption. cbn [isabs startswith String.prefix].
      fold c. now rewrite append_nil_r.
    + rewrite abspath_input by assumption. now rewrite Hr.
    + now apply isabs_app.
    + now apply Hc2.
  - destruct (endswith_char start sep) eqn:Hend.
    + destruct (isabs start) eqn:Habs.
      * destruct (components_below start (n :: names) Hne Hv) as [_ H2].
        apply (relpath_core cwd (start ++ r) start start (start ++ r));
          try assumption.
        -- rewrite abspath_input by assumption. now rewrite Habs.
        -- rewrite abspath_input by assumption.
           now rewrite isabs_first, Habs.
        -- now apply isabs_app.
        -- now apply H2.
      * destruct (components_below (c ++ start) (n :: names) Hne Hv) as [_ H2].
        apply (relpath_core cwd (start ++ r) start (c ++ start) ((c ++ start) ++ r));
          try assumption.
        -- rewrite abspath_input by assumption. now rewrite Habs.
        -- rewrite abspath_input by assumption.
           rewrite isabs_first, Habs by assumption. now rewrite append_assoc.
        -- now apply isabs_app.
        -- apply isabs_app. now apply isabs_app.
        -- apply H2. now rewrite endswith_char_app_r.
    + destruct (isabs start) eqn:Habs.
      * destruct (components_below start (n :: names) Hne Hv) as [H1 _].
        apply (relpath_core cwd (start ++ String sep r) start start
                 (start ++ String sep r)); try assumption.
        -- rewrite abspath_input by assumption. now rewrite Habs.
        -- rewrite abspath_input by assumption.
           now rewrite isabs_first, Habs.
        -- now apply isabs_app.
      * destruct (components_below (c ++ start) (n :: names) Hne Hv) as [H1 _].
        apply (relpath_core cwd (start ++ String sep r) start (c ++ start)
                 ((c ++ start) ++ String sep r)); try assumption.
        -- rewrite abspath_input by assumption. now rewrite Habs.
        -- rewrite abspath_input by assumption.
           rewrite isabs_first, Habs by assumption. now rewrite append_assoc.
        -- now apply isabs_app.
        -- apply isabs_app. now apply isabs_app.
Qed.

(** *** The walk, by chains of names *)

Lemma path_below_snoc (top : string) (pre : list string) (name : string) :
  path_below top (pre ++ [name])%list = PosixPath.join (path_below top pre) name.
Proof. unfold path_below. now rewrite fold_left_app. Qed.

Lemma walk_as_chains (top : string) (d : Dir) :
  forall pre,
    walk (path_below top pre) d
    = map (fun e : list string * list string * list File =>
             let '(ds, dirs, files) := e in (path_below top ds, dirs, files))
          (walk_chains pre d).
Proof.
  induction d as [files subdirs IH] using Dir_nested_ind. intros pre.
  cbn [walk walk_chains map]. f_equal.
  induction IH as [|[name sub] l Hsd _ IHl]; [reflexivity|].
  cbn [flat_map fst snd] in Hsd |- *.
  rewrite map_app, <- IHl, <- Hsd, path_below_snoc. reflexivity.
Qed.

Lemma walk_chains_valid (d : Dir) :
  forall pre,
    valid_tree d = true ->
    Forall (fun x => valid_name x = true) pre ->
    Forall (fun e : list string * list string * list File =>
              Forall (fun x => valid_name x = true) (fst (fst e)))
           (walk_chains pre d).
Proof.
  induction d as [files subdirs IH] using Dir_nested_ind. intros pre Hv Hpre.
  cbn [walk_chains]. constructor; [exact Hpre|].
  cbn [valid_tree] in Hv.
  induction IH as [|[name sub] l Hsd _ IHl]; [constructor|].
  cbn [forallb fst snd] in Hv, Hsd.
  apply andb_true_iff in Hv as [Hv Hl]. apply andb_true_iff in Hv as [Hn Hsub].
  cbn [flat_map fst snd]. apply Forall_app. split; [|now apply IHl].
  apply Hsd; [assumption|]. apply Forall_app. split; [assumption|].
  now constructor.
Qed.

(** X12. The label of a file is its path relative to the source
    directory, the names from the source directory down to the file
    joined by [/]: for a file in the directory reached through the
    sub-directories [ds], [os.walk] yields that directory under the path
    joined from the source directory and [ds], and [os.path.relpath] of
    the path joined with the file name gives the names of [ds] and the file
    name with [/] between them.  That holds whatever the source directory
    is written like (relative, absolute, with a trailing separator), for a
    working directory that is absolute and names that are valid. *)
Theorem file_label_is_relative_path
        (self : t) (env : Env) (source_dir : string) (d : Dir)
        (ds dirs : list string) (files : list File) (f : File) :
  isabs (cwd env) = true ->
  fs env source_dir = Some d ->
  valid_tree d = true ->
  In (ds, dirs, files) (walk_chains [] d) ->
  In f files ->
  valid_name (fname f) = true ->
  let root := path_below source_dir ds in
  let label := PyStr.join "/" (ds ++ [fname f])%list in
  In (root, dirs, files) (os_walk env source_dir)
  /\ relpath (cwd env) (PosixPath.join root (fname f)) source_dir = label
  /\ (forall content,
        is_text_file self (PosixPath.join root (fname f)) = true ->
        outcome f = Readable content ->
        section_of self env source_dir root f
        = header_block label ++ content ++ nl ++ nl).
Proof.
  intros Hcwd Hfs Hv Hin Hf Hname root label.
  assert (Hds : Forall (fun x => valid_name x = true) ds).
  { pose proof (walk_chains_valid d [] Hv (Forall_nil _)) as H.
    rewrite Forall_forall in H. exact (H _ Hin). }
  assert (Hrel : relpath (cwd env) (PosixPath.join root (fname f)) source_dir = label).
  { unfold root, label. rewrite <- path_below_snoc.
    apply relpath_of_path_below; [assumption | now destruct ds |].
    apply Forall_app. split; [assumption | now constructor]. }
  split; [|split].
  - unfold os_walk. rewrite Hfs.
    change source_dir with (path_below source_dir []) at 1.
    rewrite walk_as_chains. apply in_map_iff.
    now exists (ds, dirs, files).
  - exact Hrel.
  - intros content Ha Ho. unfold section_of. now rewrite Ha, Ho, Hrel.
Qed.

Lemma file_label_is_relative_path_witness :
  relpath (cwd nested_env)
    (PosixPath.join (path_below "root" ["sub2"; "sub3"]) "y.txt") "root"
  = "sub2/sub3/y.txt".
Proof.
  refine (proj1 (proj2 (file_label_is_relative_path init nested_env "root" _
                          ["sub2"; "sub3"] [] _
                          {| fname := "y.txt"; outcome := Readable "y" |}
                          eq_refl eq_refl eq_refl _ _ eq_refl))).
  - cbn. right. right. right. left. reflexivity.
  - left. reflexivity.
Defined.

End RelPath.

(* ================================================================== *)
(** ** Names with an extension *)
(* ================================================================== *)

Module Extension.
Import PyStr PosixPath FileMerger Expected Scenarios PathFacts FilterFacts.
Import MergeFacts TreeFacts FilterMore OutputName.

Lemma length_lower (s : string) : String.length (lower s) = String.length s.
Proof. induction s as [|x s IH]; cbn [lower String.length]; [reflexivity | now rewrite IH]. Qed.

Lemma count_times_dot_self (k : nat) : count (times "." k) extsep = k.
Proof. induction k as [|k IH]; cbn [times append count]; [reflexivity | now rewrite IH]. Qed.

(** A name without a separator, made of a stem that is not dots only, a
    dot and a tail without a dot, splits at that dot. *)
Lemma splitext_stem_ext (stem e : string) :
  count stem sep = 0%nat ->
  (count stem extsep < String.length stem)%nat ->
  count e sep = 0%nat ->
  count e extsep = 0%nat ->
  snd (splitext (stem ++ String extsep e)) = String extsep e.
Proof.
  intros Hsep Hdots Hesep Hedot. unfold splitext.
  assert (Hs : rfind (stem ++ String extsep e) sep = (-1)%Z).
  { unfold rfind. rewrite rfind_from_absent; [reflexivity|].
    rewrite count_app, Hsep. cbn [count].
    change (Ascii.eqb extsep sep) with false. exact Hesep. }
  assert (Hd : rfind (stem ++ String extsep e) extsep = Z.of_nat (String.length stem)).
  { unfold rfind. rewrite rfind_from_app. cbn [rfind_from].
    rewrite Ascii.eqb_refl. rewrite rfind_from_absent by assumption. lia. }
  rewrite Hs, Hd.
  destruct (Z.ltb_spec (-1) (Z.of_nat (String.length stem))) as [_|]; [|lia].
  destruct (leading_dots stem) as [[k [c [rest [E Hc]]]] | E].
  - replace (Z.to_nat (Z.of_nat (String.length stem) - (-1 + 1)))
      with (String.length stem) by lia.
    change (-1 + 1)%Z with (Z.of_nat (String.length "")).
    assert (P : stem ++ String extsep e
                = "" ++ times "." k ++ String c (rest ++ String extsep e)).
    { rewrite E at 1. rewrite append_assoc. reflexivity. }
    rewrite P.
    rewrite (splitext_scan_stops c (rest ++ String extsep e) _ Hc k ""
               (String.length stem)).
    + rewrite <- P. cbn [snd]. unfold slice_from. rewrite Nat2Z.id.
      rewrite <- (Nat.add_0_r (String.length stem)). now rewrite drop_app.
    + rewrite E, length_append, length_times_dot. cbn [String.length]. lia.
  - rewrite E, count_times_dot_self, length_times_dot in Hdots. lia.
Qed.

(** X13. A file whose name is a stem, a dot and a tail without a dot is
    judged by that tail alone, in lower case: unless its name is excluded
    or begins with the output pattern, the file is accepted, in any
    directory, exactly when the lower-cased extension is in the allow-list.
    The stem may hold dots and must hold another character. *)
Theorem judged_by_lowercased_extension (self : t) (root stem e : string) :
  count stem sep = 0%nat ->
  (count stem extsep < String.length stem)%nat ->
  count e sep = 0%nat ->
  count e extsep = 0%nat ->
  let name := stem ++ String extsep e in
  is_text_file self (PosixPath.join root name)
  = if mem name (exclude_files self) || startswith name (output_pattern self)
    then false
    else mem (String extsep (lower e)) (supported_extensions self).
Proof.
  intros Hsep Hdots Hesep Hedot name.
  assert (Hname : count name sep = 0%nat).
  { unfold name. rewrite count_app, Hsep. cbn [count].
    change (Ascii.eqb extsep sep) with false. exact Hesep. }
  rewrite is_text_file_join by assumption.
  unfold is_text_file. rewrite basename_plain by assumption.
  unfold name at 3. rewrite lower_app. cbn [lower].
  change (lower_char extsep) with extsep.
  rewrite splitext_stem_ext; [reflexivity | | | |].
  - now rewrite count_lower_sep.
  - now rewrite count_lower_dot, length_lower.
  - now rewrite count_lower_sep.
  - now rewrite count_lower_dot.
Qed.

Lemma judged_by_lowercased_extension_witness :
  is_text_file init (PosixPath.join "/home/u/proj" "jquery.min.JS") = true.
Proof.
  refine (eq_trans
            (judged_by_lowercased_extension init "/home/u/proj" "jquery.min" "JS"
               eq_refl _ eq_refl eq_refl) _).
  - cbn. lia.
  - vm_compute. reflexivity.
Defined.

(** X14. The name [main] gives the output file is the base name of the
    working directory, [_merged_], the date as eight digits, [_], the time
    as six digits, and [.txt].  It holds no separator, so that the file is
    created in the working directory, the directory the run walks. *)
Theorem output_file_name_shape (env : Env) :
  exists stamp,
    output_file_name env = basename (cwd env) ++ "_merged_" ++ stamp ++ ".txt"
    /\ matches_pattern "99999999_999999" stamp = true
    /\ count (output_file_name env) sep = 0%nat
    /\ isabs (output_file_name env) = false.
Proof.
  exists (strftime (now env) "%Y%m%d_%H%M%S").
  destruct (output_file_name_facts env) as [Hsep _].
  split; [reflexivity|]. split; [|split; [exact Hsep|]].
  - cbv - [is_digit digit Nat.div year month day hour minute second andb now].
    rewrite !digit_is_digit. reflexivity.
  - unfold isabs, startswith.
    destruct (output_file_name env) as [|x r]; [reflexivity|].
    cbn [count] in Hsep. cbn [String.prefix].
    destruct (ascii_dec sep x) as [<-|]; [|reflexivity].
    rewrite Ascii.eqb_refl in Hsep. discriminate.
Qed.

End Extension.

(* ================================================================== *)
(** ** The lines of the listing *)
(* ================================================================== *)

Module ListingLines.
Import PyStr PosixPath FileMerger Expected Scenarios PathFacts FilterFacts.
Import MergeFacts TreeFacts RelPath.

Lemma split_one (c : ascii) (n : string) : count n c = 0%nat -> split n c = [n].
Proof.
  intros H. unfold split. rewrite <- (append_nil_r n) at 1.
  rewrite split_go_nosep by assumption. cbn [split_go].
  rewrite rev_string_twice. cbn [rev_string]. now rewrite append_nil_r.
Qed.

(** Splitting the join of pieces without the separator gives the pieces
    back. *)
Lemma split_concat (c : ascii) (n : string) (rest : list string) :
  Forall (fun x => count x c = 0%nat) (n :: rest) ->
  split (String.concat (String c "") (n :: rest)) c = n :: rest.
Proof.
  revert n. induction rest as [|m rest IH]; intros n H.
  - inversion H; subst. cbn [String.concat]. now apply split_one.
  - inversion H as [|? ? Hn Hrest]; subst.
    change (String.concat (String c "") (n :: m :: rest))
      with (n ++ String c (String.concat (String c "") (m :: rest))).
    unfold split. rewrite split_go_app_sep.
    fold (split n c). fold (split (String.concat (String c "") (m :: rest)) c).
    rewrite split_one by assumption. now rewrite IH.
Qed.

Lemma count_times_spaces (k : nat) : count (times "  " k) newline = 0%nat.
Proof. induction k as [|k IH]; [reflexivity | exact IH]. Qed.

Lemma structure_of_one_line (startpath : string)
      (e : string * list string * list File) :
  count (basename (fst (fst e))) newline = 0%nat ->
  Forall (fun f => count (fname f) newline = 0%nat) (snd e) ->
  Forall (fun x => count x newline = 0%nat) (structure_of startpath e).
Proof.
  destruct e as [[root dirs] files]. cbn [fst snd structure_of]. intros Hr Hf.
  constructor.
  - rewrite !count_app, count_times_spaces, Hr. reflexivity.
  - apply Forall_map. rewrite Forall_forall in Hf |- *. intros f Hin.
    rewrite count_app, count_times_spaces. cbn [Nat.add]. now apply Hf.
Qed.

(** X1. When no name of a visited directory and no name of a file
    holds a line break, the listing has exactly one line of text for every
    directory of the tree and one for every file, whatever the start path
    is. *)
Theorem listing_one_line_per_entry (env : Env) (startpath : string) (d : Dir) :
  fs env startpath = Some d ->
  one_line_names (os_walk env startpath) ->
  List.length (split (get_directory_structure env startpath) newline)
  = (count_dirs d + count_files d)%nat.
Proof.
  intros Hfs Hnames. unfold one_line_names in Hnames.
  rewrite <- (listing_length startpath d startpath).
  unfold get_directory_structure, os_walk in *. rewrite Hfs in *.
  assert (Hl : Forall (fun x => count x newline = 0%nat)
                 (flat_map (structure_of startpath) (walk startpath d))).
  { induction Hnames as [|e l [Hr Hf] _ IH]; [constructor|].
    cbn [flat_map]. apply Forall_app. split; [|exact IH].
    now apply structure_of_one_line. }
  destruct (flat_map (structure_of startpath) (walk startpath d)) as [|n rest] eqn:E.
  - destruct d as [files subdirs]. cbn [walk flat_map structure_of] in E.
    discriminate E.
  - unfold PyStr.join. change nl with (String newline "").
    now rewrite split_concat.
Qed.

Lemma listing_one_line_per_entry_witness :
  List.length (split (get_directory_structure nested_env "root") newline) = 6%nat.
Proof.
  refine (listing_one_line_per_entry nested_env "root" _ eq_refl _).
  unfold one_line_names. cbn.
  repeat (constructor; [split; [reflexivity | repeat constructor] |]).
  constructor.
Defined.

End ListingLines.
